(** * F1 metrics: view builder, metric cache and bulk routes

    A shallow embedding of the Python sources
    [backend/config.py], [backend/data/loader.py], [backend/data/cache.py],
    [backend/metrics/base.py], [backend/metrics/driver/race.py] and
    [backend/api/routes/metrics.py], with the properties of the specification
    stated over it.

    Conventions of the embedding:
    - a pandas [DataFrame] is a [list] of row records, in frame order;
      a nullable column is an [option];
    - a Python [Optional[int]] argument is an [option Z]; the test [if x:]
      is [truthy x];
    - Python floats that carry decimal quantities (points, averages) are
      rationals [Q];
    - a Python string is a [string] whose characters are the code points
      below 256. *)

From Stdlib Require Import Ascii String ZArith QArith Lia.
From stdpp Require Import base tactics option list sorting strings pretty gmap.

Local Open Scope Z_scope.
Set Warnings "-register-all,-clear-no-such-hyp".

(** ** backend/config.py *)

Module Config.

Definition MIN_YEAR : Z := 2011.
Definition ENABLE_CACHE : bool := true.
Definition CACHE_TTL : Z := 3600.

End Config.

(** ** Python values shared by the modules *)

Module Py.

(** [if x:] for an [Optional[int]]: false for [None] and for [0]. *)
Definition truthy (x : option Z) : bool :=
  match x with
  | None => false
  | Some v => negb (v =? 0)
  end.

(** [if l:] / [l or default] for an [Optional[List[int]]]: false for [None]
    and for the empty list. *)
Definition truthy_list (l : option (list Z)) : bool :=
  match l with
  | None | Some [] => false
  | Some (_ :: _) => true
  end.

(** Python values as the metric results carry them.  A [dict] is the list
    of its items in insertion order; numpy scalars are kept apart from the
    native numbers they wrap. *)
Inductive pykey :=
  | KStr (s : string)
  | KInt (z : Z).

Inductive pyval :=
  | VNone
  | VBool (b : bool)
  | VInt (z : Z)
  | VFloat (q : Q)
  | VStr (s : string)
  | VList (l : list pyval)
  | VDict (d : list (pykey * pyval))
  | VNpInt (z : Z)
  | VNpFloat64 (q : Q)
  | VNpBool (b : bool).

Global Instance pykey_eq_dec : EqDecision pykey.
Proof. solve_decision. Defined.

Definition of_opt_int (x : option Z) : pyval :=
  match x with Some z => VInt z | None => VNone end.

Definition of_opt_str (x : option string) : pyval :=
  match x with Some s => VStr s | None => VNone end.

(** Truth value of a Python value ([if v:], [not v]). *)
Definition py_truthy (v : pyval) : bool :=
  match v with
  | VNone => false
  | VBool b | VNpBool b => b
  | VInt z | VNpInt z => negb (z =? 0)
  | VFloat q | VNpFloat64 q => negb (Qeq_bool q 0)
  | VStr s => negb (bool_decide (s = ""))
  | VList l => negb (bool_decide (l = []))
  | VDict d => negb (bool_decide (length d = 0%nat))
  end.

(** [d[k]] and [d[k] = v] on the items of a dict: a key keeps the place of
    its first insertion. *)
Fixpoint dict_get {V} (d : list (pykey * V)) (k : pykey) : option V :=
  match d with
  | [] => None
  | (k', v) :: d' => if decide (k' = k) then Some v else dict_get d' k
  end.

Fixpoint dict_set {V} (d : list (pykey * V)) (k : pykey) (v : V)
    : list (pykey * V) :=
  match d with
  | [] => [(k, v)]
  | (k', v') :: d' =>
      if decide (k' = k) then (k, v) :: d' else (k', v') :: dict_set d' k v
  end.

(** [str(x)] of an integer and of a boolean. *)
Definition str_of_int (z : Z) : string := pretty z.
Definition str_of_bool (b : bool) : string := if b then "True" else "False".

End Py.

(** ** backend/data/loader.py *)

Module Loader.

Import Config Py.

(** *** The raw tables *)

(** races.csv *)
Record race := mk_race {
  race_raceId : Z;
  race_year : Z;
  race_round : Z;
  race_name : string;
  race_date : string
}.

(** results.csv.  [position] is the raw text of the column (["1"], ["2"], or
    a sentinel such as ["\N"] or ["Ret"]); [positionText] is the display
    column; [positionOrder] and [points] are numeric columns that may hold a
    missing value. *)
Record result := mk_result {
  res_resultId : Z;
  res_raceId : Z;
  res_driverId : Z;
  res_constructorId : Z;
  res_position : string;
  res_positionText : option string;
  res_positionOrder : option Z;
  res_points : option Q;
  res_statusId : Z
}.

(** drivers.csv *)
Record driver := mk_driver {
  drv_driverId : Z;
  drv_forename : option string;
  drv_surname : option string
}.

(** constructors.csv *)
Record constructor := mk_constructor {
  con_constructorId : Z;
  con_name : option string
}.

(** constructor_standings.csv *)
Record standing := mk_standing {
  cs_constructorStandingsId : option Z;
  cs_raceId : Z;
  cs_constructorId : Z;
  cs_points : option Q;
  cs_position : option Z;
  cs_positionText : option string;
  cs_wins : option Z
}.

(** qualifying.csv.  [constructorId] is optional because the views replace
    the column by a mapping that may be undefined on a driver. *)
Record qualifying := mk_qualifying {
  q_qualifyId : Z;
  q_raceId : Z;
  q_driverId : Z;
  q_constructorId : option Z;
  q_position : option Z
}.

(** lap_times.csv; [constructorId] is the column the views add. *)
Record lap_time := mk_lap_time {
  lt_raceId : Z;
  lt_driverId : Z;
  lt_lap : Z;
  lt_milliseconds : option Z;
  lt_constructorId : option Z
}.

(** pit_stops.csv; [constructorId] is the column the views add. *)
Record pit_stop := mk_pit_stop {
  ps_raceId : Z;
  ps_driverId : Z;
  ps_stop : option Z;
  ps_lap : option Z;
  ps_milliseconds : option Z;
  ps_constructorId : option Z
}.

(** The dataset directory as [load_csv] sees it: one frame per file.
    [load_csv] hands out a copy of the frame, so the tables are never
    modified by a view. *)
Record tables := mk_tables {
  races_csv : list race;
  results_csv : list result;
  drivers_csv : list driver;
  constructors_csv : list constructor;
  constructor_standings_csv : list standing;
  qualifying_csv : list qualifying;
  lap_times_csv : list lap_time;
  pit_stops_csv : list pit_stop
}.

(** *** Frame operations *)

(** [sort_values(["year", "round"])] orders by year, then round. *)
Definition race_le (a b : race) : Prop :=
  race_year a < race_year b ∨
  (race_year a = race_year b ∧ race_round a ≤ race_round b).

Global Instance race_le_dec a b : Decision (race_le a b).
Proof. unfold race_le. apply _. Defined.

(** [left.merge(right, on=key, how="left")]: every left row is kept, in left
    order; it is paired with each right row of the same key, in right order,
    or with a row of missing values when there is none. *)
Definition merge_left {A B C} (on_l : A → Z) (on_r : B → Z)
    (pair : A → option B → C) (left : list A) (right : list B) : list C :=
  left ≫= λ a,
    match filter (λ b, on_r b = on_l a) right with
    | [] => [pair a None]
    | bs => (λ b, pair a (Some b)) <$> bs
    end.

(** [frame.groupby(keys)]: rows whose key is missing are dropped, the groups
    come in increasing key order, and each group keeps the frame order. *)
Definition groupby {A K} `{EqDecision K} (le : relation K)
    `{∀ x y, Decision (le x y)} (key : A → option K) (rows : list A)
    : list (K * list A) :=
  (λ k, (k, filter (λ r, key r = Some k) rows))
    <$> merge_sort le (remove_dups (omap key rows)).

(** [len(frame)] *)
Definition len {A} (l : list A) : Z := Z.of_nat (length l).

(** Aggregations over a nullable numeric column: missing values are skipped. *)
Definition agg_min (xs : list (option Z)) : option Z :=
  foldr (λ x acc, match acc with None => Some x | Some m => Some (Z.min x m) end)
        None (omap id xs).

Definition agg_max (xs : list (option Z)) : option Z :=
  foldr (λ x acc, match acc with None => Some x | Some m => Some (Z.max x m) end)
        None (omap id xs).

Definition agg_count {A} (xs : list (option A)) : Z :=
  Z.of_nat (length (omap id xs)).

Definition agg_sum (xs : list Q) : Q :=
  foldr (λ x acc, Qred (x + acc)) 0%Q xs.

(** [groupby(...).last()] on one column: the last value that is not missing. *)
Definition agg_last {A} (xs : list (option A)) : option A :=
  last (omap id xs).

(** [pd.to_numeric(column, errors="coerce")] on one cell of text: the number
    the text denotes, or the missing value when it denotes none.  Integer
    literals are covered, which is what the position column holds besides
    its sentinels. *)
Fixpoint digits_value (acc : Z) (s : string) : option Z :=
  match s with
  | EmptyString => Some acc
  | String c s' =>
      match Ascii.is_nat c with
      | Some d => digits_value (10 * acc + Z.of_nat d) s'
      | None => None
      end
  end.

Definition to_numeric (s : string) : option Z :=
  match s with
  | EmptyString => None
  | String "-"%char (String _ _ as ds) => Z.opp <$> digits_value 0 ds
  | String "+"%char (String _ _ as ds) => digits_value 0 ds
  | ds => digits_value 0 ds
  end.

(** Lexicographic order on the key tuples of [groupby]. *)
Definition pair_le {A B} (ltA : relation A) (leB : relation B)
    : relation (A * B) :=
  λ p q, ltA p.1 q.1 ∨ (p.1 = q.1 ∧ leB p.2 q.2).

Global Instance pair_le_dec {A B} `{EqDecision A} (ltA : relation A)
    (leB : relation B) `{∀ x y, Decision (ltA x y)} `{∀ x y, Decision (leB x y)}
    (p q : A * B) : Decision (pair_le ltA leB p q).
Proof. unfold pair_le. apply _. Defined.

Definition key2_le : relation (Z * Z) := pair_le Z.lt Z.le.
Definition key4_le : relation (Z * (Z * (Z * Z))) :=
  pair_le Z.lt (pair_le Z.lt (pair_le Z.lt Z.le)).

(** *** The views *)

(** [get_races]: the races from [MIN_YEAR] on, of one season when a season is
    given, by year and round. *)
Definition get_races (t : tables) (season : option Z) : list race :=
  let races := filter (λ r, MIN_YEAR ≤ race_year r) (races_csv t) in
  let races :=
    if truthy season then filter (λ r, Some (race_year r) = season) races
    else races in
  merge_sort race_le races.

(** [get_results]: the results, of the listed races when a list is given. *)
Definition get_results (t : tables) (race_ids : option (list Z)) : list result :=
  match race_ids with
  | Some ids => filter (λ r, res_raceId r ∈ ids) (results_csv t)
  | None => results_csv t
  end.

(** A row of [get_driver_results_with_names]: the result, the columns of the
    race and of the driver it was merged with (missing when the left join
    found none), and the computed [driver_name]. *)
Record driver_result := mk_driver_result {
  dr_result : result;
  dr_race : option race;
  dr_driver : option driver;
  dr_driver_name : option string
}.


(** [joined["forename"] + " " + joined["surname"]]: missing as soon as one
    part is. *)
Definition full_name (d : option driver) : option string :=
  d ≫= λ d, drv_forename d ≫= λ f, drv_surname d ≫= λ s,
  Some (f +:+ " " +:+ s).

(** [race_ids or races["raceId"].tolist()] *)
Definition race_ids_or (race_ids : option (list Z)) (races : list race)
    : list Z :=
  match race_ids with
  | Some (i :: ids) => i :: ids
  | _ => race_raceId <$> races
  end.

(** [get_driver_results_with_names], as computed when [_joined_cache] has no
    frame for the arguments (the frame is then stored under the arguments'
    key, and later calls with these arguments get a copy of it). *)
Definition get_driver_results_with_names (t : tables)
    (driver_id season : option Z) (race_ids : option (list Z))
    : list driver_result :=
  let races := get_races t season in
  let race_ids_filtered := race_ids_or race_ids races in
  let results := get_results t (Some race_ids_filtered) in
  let results :=
    if truthy driver_id then filter (λ r, Some (res_driverId r) = driver_id) results
    else results in
  let drivers := drivers_csv t in
  let joined :=
    merge_left (λ rr : result * option race, res_driverId rr.1) drv_driverId
      (λ rr d, mk_driver_result rr.1 rr.2 d (full_name d))
      (merge_left res_raceId race_raceId (λ r rc, (r, rc)) results races)
      drivers in
  joined.

(** [get_constructor_standings] *)
Definition get_constructor_standings (t : tables) (season : option Z)
    : list standing :=
  let standings := constructor_standings_csv t in
  if truthy season then
    let races := get_races t season in
    filter (λ s, cs_raceId s ∈ race_raceId <$> races) standings
  else
    let races := get_races t None in
    filter (λ s, cs_raceId s ∈ race_raceId <$> races) standings.

(** A row of [get_constructor_results]: the result with its race and
    constructor context, [position] coerced to a number and [points] with
    missing values filled by 0. *)
Record constructor_result := mk_constructor_result {
  cr_result : result;
  cr_race : option race;
  cr_constructor : option constructor;
  cr_position : option Z;
  cr_points : Q
}.

Definition cr_raceId (row : constructor_result) : Z := res_raceId (cr_result row).
Definition cr_constructorId (row : constructor_result) : Z :=
  res_constructorId (cr_result row).
Definition cr_round (row : constructor_result) : option Z :=
  race_round <$> cr_race row.

Definition get_constructor_results (t : tables)
    (season constructor_id : option Z) : list constructor_result :=
  let races := get_races t season in
  let results := get_results t (Some (race_raceId <$> races)) in
  let results :=
    if truthy constructor_id
    then filter (λ r, Some (res_constructorId r) = constructor_id) results
    else results in
  merge_left (λ rr : result * option race, res_constructorId rr.1)
    con_constructorId
    (λ rr c, mk_constructor_result rr.1 rr.2 c
               (to_numeric (res_position rr.1))
               (default 0%Q (res_points rr.1)))
    (merge_left res_raceId race_raceId (λ r rc, (r, rc)) results races)
    (constructors_csv t).

(** A row of [get_constructor_championship_positions]: the group keys and,
    for every other column, what [last()] yields. *)
Record final_standing := mk_final_standing {
  fs_year : Z;
  fs_constructorId : Z;
  fs_constructorStandingsId : option Z;
  fs_raceId : option Z;
  fs_points : option Q;
  fs_position : option Z;
  fs_positionText : option string;
  fs_wins : option Z;
  fs_round : option Z
}.

(** [standings.merge(races[["raceId", "year", "round"]], ...)]: a standing
    with the race it was merged with. *)
Definition standing_with_year : Type := standing * option race.

Definition swy_year (r : standing_with_year) : option Z := race_year <$> r.2.
Definition swy_round (r : standing_with_year) : option Z := race_round <$> r.2.

(** [.groupby(["year", "constructorId"]).last().reset_index()] on one group. *)
Definition last_of_group (g : (Z * Z) * list standing_with_year)
    : final_standing :=
  let rows := g.2 in
  mk_final_standing g.1.1 g.1.2
    (agg_last ((λ r : standing_with_year, cs_constructorStandingsId r.1) <$> rows))
    (agg_last ((λ r : standing_with_year, Some (cs_raceId r.1)) <$> rows))
    (agg_last ((λ r : standing_with_year, cs_points r.1) <$> rows))
    (agg_last ((λ r : standing_with_year, cs_position r.1) <$> rows))
    (agg_last ((λ r : standing_with_year, cs_positionText r.1) <$> rows))
    (agg_last ((λ r : standing_with_year, cs_wins r.1) <$> rows))
    (agg_last (swy_round <$> rows)).

Definition get_constructor_championship_positions (t : tables)
    (season : option Z) : list final_standing :=
  let standings := get_constructor_standings t season in
  match standings with
  | [] => []
  | _ =>
    let races := get_races t None in
    let standings_with_year : list standing_with_year :=
      merge_left cs_raceId race_raceId (λ s rc, (s, rc)) standings races in
    let final_standings :=
      last_of_group
        <$> groupby key2_le
              (λ r : standing_with_year,
                 (λ y, (y, cs_constructorId r.1)) <$> swy_year r)
              standings_with_year in
    final_standings
  end.

(** A row of [get_constructor_race_wins]. *)
Record race_win := mk_race_win {
  rw_raceId : Z;
  rw_constructorId : Z;
  rw_year : Z;
  rw_round : Z;
  rw_best_position : option Z;
  rw_worst_position : option Z;
  rw_drivers_count : Z;
  rw_total_points : Q
}.

(** The key [["raceId", "constructorId", "year", "round"]] of a row. *)
Definition race_constructor_key (row : constructor_result)
    : option (Z * (Z * (Z * Z))) :=
  (λ rc, (cr_raceId row, (cr_constructorId row, (race_year rc, race_round rc))))
    <$> cr_race row.

(** The frame [race_results] of [get_constructor_race_wins]: one row per
    (race, constructor) group. *)
Definition race_results (results : list constructor_result) : list race_win :=
  (λ g : (Z * (Z * (Z * Z))) * list constructor_result,
     mk_race_win g.1.1 g.1.2.1 g.1.2.2.1 g.1.2.2.2
       (agg_min (cr_position <$> g.2))
       (agg_max (cr_position <$> g.2))
       (agg_count (cr_position <$> g.2))
       (agg_sum (cr_points <$> g.2)))
  <$> groupby key4_le race_constructor_key results.

Definition get_constructor_race_wins (t : tables)
    (season constructor_id : option Z) : list race_win :=
  let results := get_constructor_results t season constructor_id in
  filter (λ w, rw_best_position w = Some 1 ∧ rw_worst_position w = Some 2
               ∧ rw_drivers_count w = 2)
    (race_results results).

(** [get_qualifying], [get_lap_times], [get_pit_stops] *)
Definition get_qualifying (t : tables) (race_ids : option (list Z))
    : list qualifying :=
  match race_ids with
  | Some ids => filter (λ q, q_raceId q ∈ ids) (qualifying_csv t)
  | None => qualifying_csv t
  end.

Definition get_lap_times (t : tables) (race_ids : option (list Z))
    : list lap_time :=
  match race_ids with
  | Some ids => filter (λ l, lt_raceId l ∈ ids) (lap_times_csv t)
  | None => lap_times_csv t
  end.

Definition get_pit_stops (t : tables) (race_ids : option (list Z))
    : list pit_stop :=
  match race_ids with
  | Some ids => filter (λ p, ps_raceId p ∈ ids) (pit_stops_csv t)
  | None => pit_stops_csv t
  end.

(** [results.groupby("driverId")["constructorId"].first().to_dict()],
    applied to a driver: the constructor of the driver's first result. *)
Definition driver_constructor_map (results : list result) (driver_id : Z)
    : option Z :=
  res_constructorId <$> head (filter (λ r, res_driverId r = driver_id) results).

(** A row of [get_constructor_podium_lockouts]. *)
Record podium_count := mk_podium_count {
  pc_raceId : Z;
  pc_constructorId : Z;
  pc_year : Z;
  pc_round : Z;
  pc_best_position : option Z;
  pc_podium_positions : Z;
  pc_drivers_count : Z
}.

Definition get_constructor_podium_lockouts (t : tables)
    (season constructor_id : option Z) : list podium_count :=
  let results := get_constructor_results t season constructor_id in
  let podium_results :=
    filter (λ r, cr_position r ∈ [Some 1; Some 2; Some 3]) results in
  let podium_counts :=
    (λ g : (Z * (Z * (Z * Z))) * list constructor_result,
       mk_podium_count g.1.1 g.1.2.1 g.1.2.2.1 g.1.2.2.2
         (agg_min (cr_position <$> g.2))
         (agg_count (cr_position <$> g.2))
         (len g.2))
    <$> groupby key4_le race_constructor_key podium_results in
  filter (λ c, pc_best_position c = Some 1 ∧ 2 ≤ pc_podium_positions c)
    podium_counts.

(** A row of [get_constructor_qualifying_performance]. *)
Definition qualifying_with_race : Type := qualifying * option race.

Definition get_constructor_qualifying_performance (t : tables)
    (season constructor_id : option Z) : list qualifying_with_race :=
  let races := get_races t season in
  let qualifying := get_qualifying t (Some (race_raceId <$> races)) in
  let qualifying :=
    if truthy constructor_id then
      let results := get_results t (Some (race_raceId <$> races)) in
      let qualifying :=
        (λ q, mk_qualifying (q_qualifyId q) (q_raceId q) (q_driverId q)
                (driver_constructor_map results (q_driverId q)) (q_position q))
        <$> qualifying in
      filter (λ q, q_constructorId q = constructor_id) qualifying
    else qualifying in
  merge_left q_raceId race_raceId (λ q rc, (q, rc)) qualifying races.

(** [get_constructor_pit_stop_performance] *)
Definition get_constructor_pit_stop_performance (t : tables)
    (season constructor_id : option Z) : list pit_stop :=
  let races := get_races t season in
  let pit_stops := get_pit_stops t (Some (race_raceId <$> races)) in
  if truthy constructor_id then
    let results := get_results t (Some (race_raceId <$> races)) in
    let pit_stops :=
      (λ p, mk_pit_stop (ps_raceId p) (ps_driverId p) (ps_stop p) (ps_lap p)
              (ps_milliseconds p)
              (driver_constructor_map results (ps_driverId p)))
      <$> pit_stops in
    filter (λ p, ps_constructorId p = constructor_id) pit_stops
  else pit_stops.

(** [get_constructor_pit_stop_stats]: the columns are numeric already, so
    the coercions leave them as they are. *)
Definition get_constructor_pit_stop_stats (t : tables)
    (season constructor_id : option Z) : list pit_stop :=
  let pit_stops := get_constructor_pit_stop_performance t season constructor_id in
  match pit_stops with
  | [] => []
  | _ => pit_stops
  end.

(** A row of [get_constructor_lap_times]. *)
Definition lap_time_with_context : Type := lap_time * option race.

Definition get_constructor_lap_times (t : tables)
    (season constructor_id : option Z) : list lap_time_with_context :=
  let races := get_races t season in
  let lap_times := get_lap_times t (Some (race_raceId <$> races)) in
  match lap_times with
  | [] => []
  | _ =>
    let lap_times :=
      if truthy constructor_id then
        let results := get_results t (Some (race_raceId <$> races)) in
        let lap_times :=
          (λ l, mk_lap_time (lt_raceId l) (lt_driverId l) (lt_lap l)
                  (lt_milliseconds l)
                  (driver_constructor_map results (lt_driverId l)))
          <$> lap_times in
        filter (λ l, lt_constructorId l = constructor_id) lap_times
      else lap_times in
    merge_left lt_raceId race_raceId (λ l rc, (l, rc)) lap_times races
  end.

(** A row of [get_constructor_points_data]. *)
Record points_row := mk_points_row {
  pd_raceId : Z;
  pd_constructorId : Z;
  pd_year : Z;
  pd_round : Z;
  pd_total_points : Q;
  pd_best_finish : option Z;
  pd_avg_finish : option Q;
  pd_cars_finished : Z
}.

Definition agg_mean (xs : list (option Z)) : option Q :=
  match omap id xs with
  | [] => None
  | ys => Some (Qred (foldr Z.add 0 ys # Pos.of_nat (length ys)))
  end.

Definition get_constructor_points_data (t : tables)
    (season constructor_id : option Z) : list points_row :=
  let results := get_constructor_results t season constructor_id in
  match results with
  | [] => []
  | _ =>
    (λ g : (Z * (Z * (Z * Z))) * list constructor_result,
       mk_points_row g.1.1 g.1.2.1 g.1.2.2.1 g.1.2.2.2
         (agg_sum (cr_points <$> g.2))
         (agg_min (cr_position <$> g.2))
         (agg_mean (cr_position <$> g.2))
         (agg_count (cr_position <$> g.2)))
    <$> groupby key4_le race_constructor_key results
  end.

End Loader.


(** ** backend/metrics/base.py *)

Module Base.

Import Py.

(** The dataclass [MetricResult].  Python does not enforce the annotated
    field types, so every field holds a Python value. *)
Record MetricResult := mk_MetricResult {
  metric_name : pyval;
  value : pyval;
  driver_id : pyval;
  driver_name : pyval;
  constructor_id : pyval;
  constructor_name : pyval;
  season : pyval;
  metadata : pyval
}.

(** [MetricResult._serialize_value] and [MetricResult._serialize_dict]:
    numpy scalars become native numbers, recursively through lists and
    dicts. *)
Fixpoint _serialize_value (v : pyval) : pyval :=
  match v with
  | VNpInt z => VInt z
  | VNpFloat64 q => VFloat q
  | VNpBool b => VBool b
  | VDict d =>
      VDict ((fix _serialize_dict (d : list (pykey * pyval)) :=
                match d with
                | [] => []
                | (k, x) :: d' => (k, _serialize_value x) :: _serialize_dict d'
                end) d)
  | VList l =>
      VList ((fix items (l : list pyval) :=
                match l with
                | [] => []
                | x :: l' => _serialize_value x :: items l'
                end) l)
  | _ => v
  end.

Definition _serialize_dict (d : list (pykey * pyval)) : list (pykey * pyval) :=
  prod_map id _serialize_value <$> d.

(** [__post_init__].  [None] stands for the exception Python raises when a
    truthy [metadata] is not a dict. *)
Definition __post_init__ (r : MetricResult) : option MetricResult :=
  let v := _serialize_value (value r) in
  if py_truthy (metadata r) then
    match metadata r with
    | VDict d =>
        Some (mk_MetricResult (metric_name r) v (driver_id r) (driver_name r)
                (constructor_id r) (constructor_name r) (season r)
                (VDict (_serialize_dict d)))
    | _ => None
    end
  else
    Some (mk_MetricResult (metric_name r) v (driver_id r) (driver_name r)
            (constructor_id r) (constructor_name r) (season r) (metadata r)).

(** The constructor call [MetricResult(...)]: the fields are assigned, then
    [__post_init__] runs. *)
Definition new_MetricResult (metric_name value driver_id driver_name
    constructor_id constructor_name season metadata : pyval)
    : option MetricResult :=
  __post_init__ (mk_MetricResult metric_name value driver_id driver_name
                   constructor_id constructor_name season metadata).

(** [result.__dict__]: the fields in declaration order. *)
Definition __dict__ (r : MetricResult) : list (pykey * pyval) :=
  [ (KStr "metric_name", metric_name r);
    (KStr "value", value r);
    (KStr "driver_id", driver_id r);
    (KStr "driver_name", driver_name r);
    (KStr "constructor_id", constructor_id r);
    (KStr "constructor_name", constructor_name r);
    (KStr "season", season r);
    (KStr "metadata", metadata r) ].

Definition field_names : list string :=
  [ "metric_name"; "value"; "driver_id"; "driver_name"; "constructor_id";
    "constructor_name"; "season"; "metadata" ].

(** [MetricResult] called with the items of [d] as keyword arguments: every key must name a field, [metric_name] and
    [value] must be given, the other fields default to [None].  [None]
    stands for the [TypeError] raised otherwise, or for the exception of
    [__post_init__]. *)
Definition is_field (k : pykey) : bool :=
  match k with
  | KStr s => bool_decide (s ∈ field_names)
  | KInt _ => false
  end.

Definition MetricResult_of_kwargs (d : list (pykey * pyval))
    : option MetricResult :=
  if forallb (λ kv, is_field kv.1) d then
    name ← dict_get d (KStr "metric_name");
    v ← dict_get d (KStr "value");
    let opt k := default VNone (dict_get d (KStr k)) in
    new_MetricResult name v (opt "driver_id") (opt "driver_name")
      (opt "constructor_id") (opt "constructor_name") (opt "season")
      (opt "metadata")
  else None.

(** What a metric hands to the cache and gets back from it: a
    [MetricResult] object or a plain value. *)
Inductive pyobj :=
  | OMetric (r : MetricResult)
  | OPlain (v : pyval).

(** [type(result).__name__] *)
Definition type_name (o : pyobj) : string :=
  match o with
  | OMetric _ => "MetricResult"
  | OPlain VNone => "NoneType"
  | OPlain (VBool _) => "bool"
  | OPlain (VInt _) => "int"
  | OPlain (VFloat _) => "float"
  | OPlain (VStr _) => "str"
  | OPlain (VList _) => "list"
  | OPlain (VDict _) => "dict"
  | OPlain (VNpInt _) => "int64"
  | OPlain (VNpFloat64 _) => "float64"
  | OPlain (VNpBool _) => "bool"
  end.





(** [result.metadata[k]] *)
Definition metadata_get (r : MetricResult) (k : string) : option pyval :=
  match metadata r with
  | VDict d => dict_get d (KStr k)
  | _ => None
  end.

End Base.

(** ** hashlib.sha256 (FIPS 180-4), on which the cache key is built *)

Module Sha256.

Definition mask32 : Z := 0xffffffff.
Definition add32 (a b : Z) : Z := Z.land (a + b) mask32.
Definition rotr (n x : Z) : Z :=
  Z.land (Z.lor (Z.shiftr x n) (Z.shiftl x (32 - n))) mask32.
Definition not32 (x : Z) : Z := Z.lxor x mask32.

Definition Ch (e f g : Z) : Z := Z.lxor (Z.land e f) (Z.land (not32 e) g).
Definition Maj (a b c : Z) : Z :=
  Z.lxor (Z.lxor (Z.land a b) (Z.land a c)) (Z.land b c).
Definition Sigma0 (a : Z) : Z := Z.lxor (Z.lxor (rotr 2 a) (rotr 13 a)) (rotr 22 a).
Definition Sigma1 (e : Z) : Z := Z.lxor (Z.lxor (rotr 6 e) (rotr 11 e)) (rotr 25 e).
Definition sigma0 (x : Z) : Z := Z.lxor (Z.lxor (rotr 7 x) (rotr 18 x)) (Z.shiftr x 3).
Definition sigma1 (x : Z) : Z := Z.lxor (Z.lxor (rotr 17 x) (rotr 19 x)) (Z.shiftr x 10).

(** The constants of the standard: the first 32 bits of the fractional
    parts of the cube roots ([K]) and of the square roots ([H0]) of the
    first primes. *)
Definition is_prime (n : Z) : bool :=
  forallb (λ d, negb (n mod Z.of_nat d =? 0)) (seq 2 (Z.to_nat n - 2)).

Definition primes : list Z :=
  filter (λ n, is_prime n = true) (Z.of_nat <$> seq 2 310).

(** The integer cube root, found bit by bit from the highest bit. *)
Fixpoint cube_root (bits : nat) (r n : Z) : Z :=
  match bits with
  | O => r
  | S bits' =>
      let r' := r + 2 ^ Z.of_nat bits' in
      cube_root bits' (if decide (r' * r' * r' ≤ n) then r' else r) n
  end.

Definition frac_cube_root (p : Z) : Z :=
  Z.land (cube_root 40 0 (p * 2 ^ 96)) mask32.

Definition frac_square_root (p : Z) : Z :=
  Z.land (Z.sqrt (p * 2 ^ 64)) mask32.

Definition K : list Z := Eval vm_compute in frac_cube_root <$> primes.

(** Big-endian bytes of a number. *)
Fixpoint be_bytes (n : nat) (x : Z) : list Z :=
  match n with
  | O => []
  | S n' => Z.land (Z.shiftr x (8 * Z.of_nat n')) 0xff :: be_bytes n' x
  end.

Definition be_word (bs : list Z) : Z :=
  foldl (λ acc b, Z.lor (Z.shiftl acc 8) b) 0 bs.

(** Padding: a 1 bit, zeros up to 56 modulo 64 bytes, the bit length. *)
Definition pad (msg : list Z) : list Z :=
  let len := Z.of_nat (length msg) in
  msg ++ [0x80] ++ replicate (Z.to_nat ((55 - len) mod 64)) 0
      ++ be_bytes 8 (8 * len).

Fixpoint chunks (fuel : nat) (n : nat) (l : list Z) : list (list Z) :=
  match fuel, l with
  | _, [] => []
  | O, _ => []
  | S fuel', _ => take n l :: chunks fuel' n (drop n l)
  end.

(** The message schedule, most recent word first. *)
Fixpoint schedule (n : nat) (w : list Z) : list Z :=
  match n with
  | O => w
  | S n' =>
      let at_ i := default 0 (w !! i) in
      schedule n'
        (add32 (add32 (add32 (at_ 15%nat) (sigma0 (at_ 14%nat))) (at_ 6%nat))
               (sigma1 (at_ 1%nat)) :: w)
  end.

Definition words_of_block (block : list Z) : list Z :=
  reverse (schedule 48 (reverse (be_word <$> chunks 16 4 block))).

Definition state : Type := Z * Z * Z * Z * Z * Z * Z * Z.

Definition H0 : state :=
  Eval vm_compute in
    let h i := frac_square_root (default 0 (primes !! i)) in
    (h 0%nat, h 1%nat, h 2%nat, h 3%nat, h 4%nat, h 5%nat, h 6%nat, h 7%nat).

Definition round (s : state) (kw : Z * Z) : state :=
  let '(a, b, c, d, e, f, g, h) := s in
  let t1 := add32 (add32 (add32 (add32 h (Sigma1 e)) (Ch e f g)) kw.1) kw.2 in
  let t2 := add32 (Sigma0 a) (Maj a b c) in
  (add32 t1 t2, a, b, c, add32 d t1, e, f, g).

Definition compress (s : state) (block : list Z) : state :=
  let '(a, b, c, d, e, f, g, h) := s in
  let '(a', b', c', d', e', f', g', h') :=
    foldl round s (zip K (words_of_block block)) in
  (add32 a a', add32 b b', add32 c c', add32 d d',
   add32 e e', add32 f f', add32 g g', add32 h h').

Definition digest_words (msg : list Z) : list Z :=
  let p := pad msg in
  let '(a, b, c, d, e, f, g, h) :=
    foldl compress H0 (chunks (length p) 64 p) in
  [a; b; c; d; e; f; g; h].

Definition hex_digit (n : Z) : ascii :=
  match n with
  | 0 => "0" | 1 => "1" | 2 => "2" | 3 => "3" | 4 => "4" | 5 => "5"
  | 6 => "6" | 7 => "7" | 8 => "8" | 9 => "9" | 10 => "a" | 11 => "b"
  | 12 => "c" | 13 => "d" | 14 => "e" | _ => "f"
  end%char.

Fixpoint hex (n : nat) (x : Z) : string :=
  match n with
  | O => ""
  | S n' => String (hex_digit (Z.land (Z.shiftr x (4 * Z.of_nat n')) 0xf)) (hex n' x)
  end.

(** [hashlib.sha256(bytes).hexdigest()] *)
Definition hexdigest (msg : list Z) : string :=
  foldr (λ w acc, hex 8 w +:+ acc) "" (digest_words msg).

End Sha256.

(** ** json, as the cache uses it *)

Module Json.

Import Py.

(** The parameters of a metric call: [None], an integer or a list of
    integers ([driver_id], [constructor_id], [season], [race_ids]), under
    their keyword. *)
Inductive param :=
  | PNone
  | PInt (z : Z)
  | PList (l : list Z).

Definition kwargs : Type := list (string * param).

Definition of_opt (x : option Z) : param :=
  match x with Some z => PInt z | None => PNone end.

Definition of_opt_list (x : option (list Z)) : param :=
  match x with Some l => PList l | None => PNone end.

Definition dquote : ascii := "034"%char.
Definition backslash : ascii := "092"%char.

(** [json.encoder.py_encode_basestring_ascii] on one character: a quote, a
    backslash and every character outside [' '..'~'] are escaped. *)
Definition escape_char (c : ascii) : string :=
  let n := Z.of_N (N_of_ascii c) in
  if decide (c = dquote) then String backslash (String dquote "")
  else if decide (c = backslash) then String backslash (String backslash "")
  else if decide (n = 8) then String backslash "b"
  else if decide (n = 12) then String backslash "f"
  else if decide (n = 10) then String backslash "n"
  else if decide (n = 13) then String backslash "r"
  else if decide (n = 9) then String backslash "t"
  else if decide (32 ≤ n ≤ 126) then String c ""
  else String backslash ("u" +:+ Sha256.hex 4 n).

Fixpoint escape (s : string) : string :=
  match s with
  | EmptyString => ""
  | String c s' => escape_char c +:+ escape s'
  end.

Definition dumps_str (s : string) : string :=
  String dquote (escape s +:+ String dquote "").

(** [", ".join(items)] followed by a closing text. *)
Fixpoint join_close (items : list string) (close : string) : string :=
  match items with
  | [] => close
  | [x] => x +:+ close
  | x :: items' => x +:+ ", " +:+ join_close items' close
  end.

Definition dumps_param (v : param) : string :=
  match v with
  | PNone => "null"
  | PInt z => str_of_int z
  | PList l => "[" +:+ join_close (str_of_int <$> l) "]"
  end.

Definition dumps_item (kv : string * param) : string :=
  dumps_str kv.1 +:+ ": " +:+ dumps_param kv.2.

(** [sorted(kwargs.items())]: the keys of a dict are distinct, so the items
    are ordered by key, strings comparing by code point. *)
Definition item_le (a b : string * param) : Prop := String.le a.1 b.1.

Global Instance item_le_dec a b : Decision (item_le a b).
Proof. unfold item_le. apply _. Defined.

Definition sorted_items (kw : kwargs) : kwargs := merge_sort item_le kw.

(** [json.dumps(kwargs, sort_keys=True, default=str)] *)
Definition dumps (kw : kwargs) : string :=
  "{" +:+ join_close (dumps_item <$> sorted_items kw) "}".

(** [text.encode()]: UTF-8. *)
Definition encode_char (c : ascii) : list Z :=
  let n := Z.of_N (N_of_ascii c) in
  if decide (n < 128) then [n]
  else [Z.lor 0xc0 (Z.shiftr n 6); Z.lor 0x80 (Z.land n 0x3f)].

Fixpoint encode (s : string) : list Z :=
  match s with
  | EmptyString => []
  | String c s' => encode_char c ++ encode s'
  end.

(** What [json.load] reads back from what [json.dump(v, f, default=str)]
    wrote.  Numbers, strings, booleans and [None] come back as they were;
    the keys of a dict come back as strings, a later item replacing an
    earlier one of the same text; a numpy integer or boolean, which json
    cannot encode, comes back as the string [str] made of it; a numpy
    float64 is a float. *)
Definition key_text (k : pykey) : string :=
  match k with
  | KStr s => s
  | KInt z => str_of_int z
  end.

Definition load_items (items : list (string * pyval)) : list (pykey * pyval) :=
  foldl (λ d kv, dict_set d (KStr kv.1) kv.2) [] items.

Fixpoint dump_load (v : pyval) : pyval :=
  match v with
  | VList l =>
      VList ((fix items (l : list pyval) :=
                match l with
                | [] => []
                | x :: l' => dump_load x :: items l'
                end) l)
  | VDict d =>
      VDict (load_items
               ((fix items (d : list (pykey * pyval)) :=
                   match d with
                   | [] => []
                   | (k, x) :: d' => (key_text k, dump_load x) :: items d'
                   end) d))
  | VNpInt z => VStr (str_of_int z)
  | VNpFloat64 q => VFloat q
  | VNpBool b => VStr (str_of_bool b)
  | _ => v
  end.

(** The values json writes and reads back unchanged: [None], booleans,
    integers, floats, strings, lists of such values, and dicts of such
    values under distinct string keys. *)
Fixpoint json_native (v : pyval) : bool :=
  match v with
  | VNone | VBool _ | VInt _ | VFloat _ | VStr _ => true
  | VList l =>
      (fix all (l : list pyval) : bool :=
         match l with
         | [] => true
         | x :: l' => json_native x && all l'
         end) l
  | VDict d =>
      bool_decide (NoDup d.*1) &&
      (fix all (d : list (pykey * pyval)) : bool :=
         match d with
         | [] => true
         | (KStr _, x) :: d' => json_native x && all d'
         | (KInt _, _) :: _ => false
         end) d
  | VNpInt _ | VNpFloat64 _ | VNpBool _ => false
  end.

End Json.

(** ** backend/data/cache.py *)

Module Cache.

Import Config Py Base Json.

(** [_generate_key]; [combined] is the text that is hashed. *)
Definition combined (metric_name : string) (kw : kwargs) : string :=
  metric_name +:+ ":" +:+ dumps kw.

Definition _generate_key (metric_name : string) (kw : kwargs) : string :=
  substring 0 16 (Sha256.hexdigest (encode (combined metric_name kw))).

(** A file of the cache directory: its modification time and what
    [json.load] makes of its text.  [Unreadable] is a text that is not the
    document [set] writes (not JSON, or without a ['result']). *)
Record document := mk_document {
  doc_metric_name : string;
  doc_result : pyval;
  doc_result_type : string;
  doc_cached_at : Z;
  doc_parameters : kwargs
}.

Inductive content :=
  | Unreadable
  | Document (d : document).

Record file := mk_file {
  st_mtime : Z;
  file_content : content
}.

(** The cache object: its settings and the files of [cache_dir], by key
    (the file of a key is [cache_dir / key.json]).  Times are in
    microseconds, the resolution of [datetime]. *)
Record MetricCache := mk_MetricCache {
  enabled : bool;
  ttl : Z;
  files : gmap string file
}.

Definition __init__ : MetricCache := mk_MetricCache ENABLE_CACHE CACHE_TTL ∅.

(** [timedelta(seconds=ttl)] *)
Definition timedelta_seconds (s : Z) : Z := s * 1000000.

(** What [get] answers when it has nothing: Python's [None]. *)
Definition absent : pyobj := OPlain VNone.

(** The value [get] rebuilds from a document; [absent] where the
    reconstruction raises, the exception being caught by [get]. *)
Definition load_result (d : document) : pyobj :=
  if decide (doc_result_type d = "MetricResult") then
    match doc_result d with
    | VDict items =>
        match MetricResult_of_kwargs items with
        | Some r => OMetric r
        | None => absent
        end
    | _ => absent
    end
  else OPlain (doc_result d).

(** [get], at time [now]. *)
Definition get (c : MetricCache) (now : Z) (metric_name : string) (kw : kwargs)
    : pyobj * MetricCache :=
  if negb (enabled c) then (absent, c)
  else
    let key := _generate_key metric_name kw in
    match files c !! key with
    | None => (absent, c)
    | Some f =>
        if decide (now - st_mtime f > timedelta_seconds (ttl c)) then
          (absent, mk_MetricCache (enabled c) (ttl c) (delete key (files c)))
        else
          match file_content f with
          | Unreadable => (absent, c)
          | Document d => (load_result d, c)
          end
    end.

(** [set], at time [now]. *)
Definition set (c : MetricCache) (now : Z) (metric_name : string)
    (result : pyobj) (kw : kwargs) : MetricCache :=
  if negb (enabled c) then c
  else
    let key := _generate_key metric_name kw in
    let result_dict :=
      match result with
      | OMetric r => VDict (__dict__ r)
      | OPlain v => v
      end in
    let cache_data :=
      mk_document metric_name (dump_load result_dict) (type_name result)
        now kw in
    mk_MetricCache (enabled c) (ttl c)
      (<[key := mk_file now (Document cache_data)]> (files c)).

(** [data.get('metric_name')] of a file; none when the file cannot be
    read, in which case [clear] goes on to the next file. *)
Definition stored_name (f : file) : option string :=
  match file_content f with
  | Document d => Some (doc_metric_name d)
  | Unreadable => None
  end.

(** [clear] *)
Definition clear (c : MetricCache) (metric_name : option string) : MetricCache :=
  match metric_name with
  | Some (String _ _ as name) =>
      mk_MetricCache (enabled c) (ttl c)
        (filter (λ kf : string * file, stored_name kf.2 ≠ Some name) (files c))
  | _ => mk_MetricCache (enabled c) (ttl c) ∅
  end.

End Cache.

(** ** backend/metrics/driver/race.py *)

Module Metrics.

Import Config Py Loader Base Json Cache.

(** The outcome of a call: the value returned or the exception raised. *)
Inductive outcome (A : Type) :=
  | Return (a : A)
  | Raise (e : string).
Global Arguments Return {A} a.
Global Arguments Raise {A} e.

(** The rows every driver race metric works on:
    [data_loader.get_results(race_ids or races["raceId"].tolist())] narrowed
    to the driver and to the constructor when these are truthy. *)
Definition select_results (t : tables)
    (driver_id constructor_id season : option Z) (race_ids : option (list Z))
    : list result :=
  let races := get_races t season in
  let race_ids_filtered := race_ids_or race_ids races in
  let results := get_results t (Some race_ids_filtered) in
  let results :=
    if truthy driver_id then filter (λ r, Some (res_driverId r) = driver_id) results
    else results in
  let results :=
    if truthy constructor_id
    then filter (λ r, Some (res_constructorId r) = constructor_id) results
    else results in
  results.

(** The text an f-string makes of a cell, [nan] when it is missing. *)
Definition fmt_cell (x : option string) : string := default "nan" x.

(** The [driver_name] block: the name of the first row of the driver. *)
Definition lookup_driver_name (t : tables) (driver_id : option Z) : pyval :=
  if truthy driver_id then
    match filter (λ d, Some (drv_driverId d) = driver_id) (drivers_csv t) with
    | d :: _ => VStr (fmt_cell (drv_forename d) +:+ " " +:+ fmt_cell (drv_surname d))
    | [] => VNone
    end
  else VNone.

(** [round(x, 2)], to the nearest hundredth, ties to even. *)
Definition round_half_even (q : Q) : Z :=
  let n := Qnum q in
  let d := Zpos (Qden q) in
  let f := n / d in
  let r := 2 * (n mod d) in
  if decide (r < d) then f
  else if decide (d < r) then f + 1
  else if Z.even f then f else f + 1.

Definition round2 (q : Q) : Q := Qred (round_half_even (q * 100) # 100).

(** [series.mean()], missing when the series is empty. *)
Definition mean (xs : list Z) : option Q :=
  match xs with
  | [] => None
  | _ => Some (Qred (foldr Z.add 0 xs # Pos.of_nat (length xs)))
  end.

Definition cache_key (driver_id constructor_id season : option Z)
    (race_ids : option (list Z)) : kwargs :=
  [ ("driver_id", of_opt driver_id);
    ("constructor_id", of_opt constructor_id);
    ("season", of_opt season);
    ("race_ids", of_opt_list race_ids) ].

(** What the [try] block of [calculate] does with the outcome of the
    [MetricResult(...)] call. *)
Definition of_new (r : option MetricResult) : outcome MetricResult :=
  match r with
  | Some r => Return r
  | None => Raise "AttributeError"
  end.

(** The frame of every [calculate] of the module: the cached value when
    there is one, else the computed result, which is stored. *)
Definition with_cache (name : string)
    (compute : outcome MetricResult) (c : MetricCache) (now : Z)
    (kw : kwargs) : outcome pyobj * MetricCache :=
  let '(cached_result, c) := get c now name kw in
  match cached_result with
  | OPlain VNone =>
      match compute with
      | Return result => (Return (OMetric result), set c now name (OMetric result) kw)
      | Raise e => (Raise e, c)
      end
  | _ => (Return cached_result, c)
  end.

Module AverageFinishPosition.

Definition name : string := "average_finish_position".

(** [results[results["positionOrder"].notna() & (results["positionOrder"] > 0)]] *)
Definition is_finished (r : result) : bool :=
  match res_positionOrder r with
  | Some p => bool_decide (0 < p)
  | None => false
  end.

Definition finished_results (results : list result) : list result :=
  filter (λ r, is_finished r = true) results.

Definition position_orders (results : list result) : list Z :=
  omap res_positionOrder results.

(** The body of the [try] block. *)
Definition compute (t : tables) (driver_id constructor_id season : option Z)
    (race_ids : option (list Z)) : outcome MetricResult :=
  let results := select_results t driver_id constructor_id season race_ids in
  match results with
  | [] =>
      of_new (new_MetricResult (VStr name) VNone (of_opt_int driver_id) VNone
                (of_opt_int constructor_id) VNone (of_opt_int season)
                (VDict [(KStr "message", VStr "No race results found")]))
  | _ =>
      let finished_results := finished_results results in
      let avg_position := mean (position_orders finished_results) in
      let driver_name := lookup_driver_name t driver_id in
      of_new (new_MetricResult (VStr name)
                (match avg_position with
                 | Some a => VNpFloat64 (round2 a)
                 | None => VNone
                 end)
                (of_opt_int driver_id) driver_name
                (of_opt_int constructor_id) VNone (of_opt_int season)
                (VDict
                   [ (KStr "total_races", VInt (len results));
                     (KStr "finished_races", VInt (len finished_results));
                     (KStr "dnf_count", VInt (len results - len finished_results));
                     (KStr "best_finish",
                        of_opt_int (agg_min (res_positionOrder <$> finished_results)));
                     (KStr "worst_finish",
                        of_opt_int (agg_max (res_positionOrder <$> finished_results))) ]))
  end.

Definition calculate (c : MetricCache) (now : Z) (t : tables)
    (driver_id constructor_id season : option Z) (race_ids : option (list Z))
    : outcome pyobj * MetricCache :=
  with_cache name (compute t driver_id constructor_id season race_ids) c now
    (cache_key driver_id constructor_id season race_ids).

End AverageFinishPosition.

Module DNFRate.

Definition name : string := "dnf_rate".

(** [positionText.str.contains(r'^[^\d]', na=False)]: the text has a first
    character and it is not a digit; false on a missing text. *)
Definition starts_with_non_digit (x : option string) : bool :=
  match x with
  | Some (String c _) =>
      match Ascii.is_nat c with Some _ => false | None => true end
  | _ => false
  end.

Definition dnfs (results : list result) : list result :=
  filter (λ r, starts_with_non_digit (res_positionText r) = true) results.

(** The body of the [try] block. *)
Definition compute (t : tables) (driver_id constructor_id season : option Z)
    (race_ids : option (list Z)) : outcome MetricResult :=
  let results := select_results t driver_id constructor_id season race_ids in
  match results with
  | [] =>
      of_new (new_MetricResult (VStr name) VNone (of_opt_int driver_id) VNone
                (of_opt_int constructor_id) VNone (of_opt_int season)
                (VDict [(KStr "message", VStr "No race results found")]))
  | _ =>
      let dnfs := dnfs results in
      let dnf_rate :=
        if decide (0 < len results)
        then Qred (len dnfs * 100 # Pos.of_nat (length results))
        else 0%Q in
      let driver_name := lookup_driver_name t driver_id in
      of_new (new_MetricResult (VStr name) (VFloat (round2 dnf_rate))
                (of_opt_int driver_id) driver_name
                (of_opt_int constructor_id) VNone (of_opt_int season)
                (VDict
                   [ (KStr "total_races", VInt (len results));
                     (KStr "dnf_count", VInt (len dnfs));
                     (KStr "finish_rate", VFloat (round2 (100 - dnf_rate))) ]))
  end.

Definition calculate (c : MetricCache) (now : Z) (t : tables)
    (driver_id constructor_id season : option Z) (race_ids : option (list Z))
    : outcome pyobj * MetricCache :=
  with_cache name (compute t driver_id constructor_id season race_ids) c now
    (cache_key driver_id constructor_id season race_ids).

End DNFRate.

Definition map_outcome {A B} (f : A → B) (o : outcome A) : outcome B :=
  match o with
  | Return a => Return (f a)
  | Raise e => Raise e
  end.

(** A result with another value in one of the fields that echo the
    parameters of the call. *)
Definition set_driver_id (v : pyval) (r : MetricResult) : MetricResult :=
  mk_MetricResult (metric_name r) (value r) v (driver_name r)
    (constructor_id r) (constructor_name r) (season r) (metadata r).

Definition set_constructor_id (v : pyval) (r : MetricResult) : MetricResult :=
  mk_MetricResult (metric_name r) (value r) (driver_id r) (driver_name r)
    v (constructor_name r) (season r) (metadata r).

Definition set_season (v : pyval) (r : MetricResult) : MetricResult :=
  mk_MetricResult (metric_name r) (value r) (driver_id r) (driver_name r)
    (constructor_id r) (constructor_name r) v (metadata r).

End Metrics.

(** ** backend/api/schemas.py and backend/api/routes/metrics.py *)

Module Routes.

Import Config Py Loader Base Json Cache Metrics.

Record MetricRequest := mk_MetricRequest {
  req_driver_id : option Z;
  req_constructor_id : option Z;
  req_season : option Z;
  req_race_ids : option (list Z)
}.

(** [MetricResponse]; the validation pydantic performs on the field types
    is taken to pass. *)
Record MetricResponse := mk_MetricResponse {
  resp_metric_name : pyval;
  resp_value : pyval;
  resp_driver_id : pyval;
  resp_driver_name : pyval;
  resp_constructor_id : pyval;
  resp_constructor_name : pyval;
  resp_season : pyval;
  resp_metadata : pyval
}.

(** [data_loader.get_constructor_name], for the id a result carries. *)
Definition get_constructor_name (t : tables) (constructor_id : pyval) : pyval :=
  match constructor_id with
  | VInt z | VNpInt z =>
      match filter (λ c, con_constructorId c = z) (constructors_csv t) with
      | c :: _ => of_opt_str (con_name c)
      | [] => VNone
      end
  | _ => VNone
  end.

(** [_convert_metric_result_to_response].  A value that is not a
    [MetricResult] has no [constructor_name] attribute. *)
Definition _convert_metric_result_to_response (t : tables) (result : pyobj)
    : outcome MetricResponse :=
  match result with
  | OPlain _ => Raise "object has no attribute 'constructor_name'"
  | OMetric r =>
      let constructor_name :=
        if negb (py_truthy (constructor_name r)) && py_truthy (constructor_id r)
        then get_constructor_name t (constructor_id r)
        else constructor_name r in
      Return (mk_MetricResponse (metric_name r) (value r) (driver_id r)
                (driver_name r) (constructor_id r) constructor_name
                (season r) (metadata r))
  end.

(** A calculator of the registry: [calculate] of a metric object, run on
    the cache and the tables at some time, with the arguments the route
    takes from the request. *)
Definition calculator : Type :=
  MetricCache → Z → tables → MetricRequest → outcome pyobj * MetricCache.

Definition registry : Type := list (string * calculator).

(** [name in REGISTRY] and [REGISTRY[name]] *)
Fixpoint lookup (reg : registry) (name : string) : option calculator :=
  match reg with
  | [] => None
  | (n, metric_calculator) :: reg' =>
      if decide (n = name) then Some metric_calculator else lookup reg' name
  end.

(** The entries of [DRIVER_METRICS] whose calculators are embedded here;
    the other entries are calculators of the same interface. *)
Definition DRIVER_METRICS : registry :=
  [ ("average_finish_position",
       λ c now t rq,
         AverageFinishPosition.calculate c now t (req_driver_id rq)
           (req_constructor_id rq) (req_season rq) (req_race_ids rq));
    ("dnf_rate",
       λ c now t rq,
         DNFRate.calculate c now t (req_driver_id rq)
           (req_constructor_id rq) (req_season rq) (req_race_ids rq)) ].

Inductive detail :=
  | Message (s : string)
  | Errors (errors : list string) (message : string).

(** What a route answers: the value returned, or the [HTTPException]
    raised. *)
Inductive response (A : Type) :=
  | Returned (a : A)
  | HTTPException (status_code : Z) (d : detail).
Global Arguments Returned {A} a.
Global Arguments HTTPException {A} status_code d.

Definition not_found (metric_name : string) : string :=
  "Metric '" +:+ metric_name +:+ "' not found".

Definition error_calculating (metric_name e : string) : string :=
  "Error calculating " +:+ metric_name +:+ ": " +:+ e.

(** One turn of the [for] loop of a bulk route: the lists [results] and
    [errors] after it, and the cache. *)
Definition bulk_step (reg : registry) (now : Z) (t : tables)
    (request : MetricRequest)
    (acc : list MetricResponse * list string * MetricCache)
    (metric_name : string) : list MetricResponse * list string * MetricCache :=
  let '(results, errors, c) := acc in
  match lookup reg metric_name with
  | None => (results, errors ++ [not_found metric_name], c)
  | Some metric_calculator =>
      let '(result, c) := metric_calculator c now t request in
      match result with
      | Raise e => (results, errors ++ [error_calculating metric_name e], c)
      | Return result =>
          match _convert_metric_result_to_response t result with
          | Raise e => (results, errors ++ [error_calculating metric_name e], c)
          | Return r => (results ++ [r], errors, c)
          end
      end
  end.

Definition bulk_loop (reg : registry) (now : Z) (t : tables)
    (request : MetricRequest) (c : MetricCache) (metric_names : list string)
    : list MetricResponse * list string * MetricCache :=
  foldl (bulk_step reg now t request) ([], [], c) metric_names.

(** The end of a bulk route: [if errors and not results: raise ...],
    [return results]. *)
Definition bulk_answer (acc : list MetricResponse * list string * MetricCache)
    : response (list MetricResponse) * MetricCache :=
  let '(results, errors, c) := acc in
  match errors, results with
  | _ :: _, [] =>
      (HTTPException 400 (Errors errors "No metrics could be calculated"), c)
  | _, _ => (Returned results, c)
  end.

(** [calculate_multiple_driver_metrics] *)
Definition calculate_multiple_driver_metrics (reg : registry)
    (c : MetricCache) (now : Z) (t : tables)
    (metric_names : list string) (request : MetricRequest)
    : response (list MetricResponse) * MetricCache :=
  bulk_answer (bulk_loop reg now t request c metric_names).

(** The arguments a constructor route passes: [constructor_id] and
    [season] only. *)
Definition constructor_args (request : MetricRequest) : MetricRequest :=
  mk_MetricRequest None (req_constructor_id request) (req_season request) None.

Definition constructor_id_required : detail :=
  Message "constructor_id is required for constructor metrics".

(** [calculate_multiple_constructor_metrics] *)
Definition calculate_multiple_constructor_metrics (reg : registry)
    (c : MetricCache) (now : Z) (t : tables)
    (metric_names : list string) (request : MetricRequest)
    : response (list MetricResponse) * MetricCache :=
  if negb (truthy (req_constructor_id request)) then
    (HTTPException 400 constructor_id_required, c)
  else
    bulk_answer (bulk_loop reg now t (constructor_args request) c metric_names).

(** The [try] block of a single-metric route. *)
Definition calculate_one (metric_calculator : calculator)
    (c : MetricCache) (now : Z) (t : tables) (request : MetricRequest)
    : response MetricResponse * MetricCache :=
  let '(result, c) := metric_calculator c now t request in
  match result with
  | Raise e => (HTTPException 500 (Message ("Error calculating metric: " +:+ e)), c)
  | Return result =>
      match _convert_metric_result_to_response t result with
      | Raise e =>
          (HTTPException 500 (Message ("Error calculating metric: " +:+ e)), c)
      | Return r => (Returned r, c)
      end
  end.

(** [list(REGISTRY.keys())] in an f-string *)
Definition available (reg : registry) : string :=
  "[" +:+ join_close ((λ e, "'" +:+ e.1 +:+ "'") <$> reg) "]".

(** [calculate_driver_metric] *)
Definition calculate_driver_metric (reg : registry)
    (c : MetricCache) (now : Z) (t : tables)
    (metric_name : string) (request : MetricRequest)
    : response MetricResponse * MetricCache :=
  match lookup reg metric_name with
  | None =>
      (HTTPException 404
         (Message (not_found metric_name +:+ ". Available metrics: "
                   +:+ available reg)), c)
  | Some metric_calculator => calculate_one metric_calculator c now t request
  end.

(** [calculate_constructor_metric] *)
Definition calculate_constructor_metric (reg : registry)
    (c : MetricCache) (now : Z) (t : tables)
    (metric_name : string) (request : MetricRequest)
    : response MetricResponse * MetricCache :=
  match lookup reg metric_name with
  | None =>
      (HTTPException 404
         (Message (not_found metric_name +:+ ". Available metrics: "
                   +:+ available reg)), c)
  | Some metric_calculator =>
      if negb (truthy (req_constructor_id request)) then
        (HTTPException 400 constructor_id_required, c)
      else calculate_one metric_calculator c now t (constructor_args request)
  end.

End Routes.

(** ** The view operations as one family *)

Module Views.

Import Config Py Loader.





(** The race ids a season resolves to. *)
Definition resolved (t : tables) (season : option Z) : list Z :=
  race_raceId <$> get_races t season.






End Views.

(** ** A small dataset *)

Module Sample.

Import Loader.

Definition res (resultId raceId driverId constructorId : Z)
    (position positionText : string) (positionOrder : Z) (points : Q)
    : result :=
  mk_result resultId raceId driverId constructorId position
    (Some positionText) (Some positionOrder) (Some points) 1.

(** Three races, one of them of 2009; team 7 finishes first and second in
    races 1 and 2, team 8 retires from race 2, and team 7 has one car
    classified in race 3. *)
Definition dataset : tables :=
  mk_tables
    [ mk_race 1 2009 1 "Australian Grand Prix" "2009-03-29";
      mk_race 3 2012 2 "Malaysian Grand Prix" "2012-03-25";
      mk_race 2 2012 1 "Australian Grand Prix" "2012-03-18" ]
    [ res 1 1 70 7 "1" "1" 1 10;
      res 2 1 71 7 "2" "2" 2 8;
      res 3 2 70 7 "2" "2" 2 18;
      res 4 2 71 7 "1" "1" 1 25;
      res 5 2 80 8 "\N" "R" 18 0;
      res 6 3 70 7 "1" "1" 1 25;
      res 7 3 71 7 "\N" "R" 19 0 ]
    [ mk_driver 70 (Some "Jenson") (Some "Button");
      mk_driver 71 (Some "Lewis") (Some "Hamilton") ]
    [ mk_constructor 7 (Some "McLaren"); mk_constructor 8 (Some "Sauber") ]
    [ mk_standing (Some 1) 2 7 (Some 43%Q) (Some 1) (Some "1") (Some 1);
      mk_standing (Some 2) 3 7 (Some 68%Q) (Some 1) (Some "1") (Some 2) ]
    [] [] [].

(** Season 2019 of constructor 7: the standings after rounds 1, 2 and 3
    hold 10, 25 and 40 points. *)
Definition races_2019 : list race :=
  [ mk_race 1010 2019 1 "Australian Grand Prix" "2019-03-17";
    mk_race 1011 2019 2 "Bahrain Grand Prix" "2019-03-31";
    mk_race 1012 2019 3 "Chinese Grand Prix" "2019-04-14" ].

Definition after_round_1 : standing :=
  mk_standing (Some 101) 1010 7 (Some 10%Q) (Some 3) (Some "3") (Some 0).
Definition after_round_2 : standing :=
  mk_standing (Some 102) 1011 7 (Some 25%Q) (Some 2) (Some "2") (Some 0).
Definition after_round_3 : standing :=
  mk_standing (Some 103) 1012 7 (Some 40%Q) (Some 1) (Some "1") (Some 1).

(** constructor_standings.csv with the rows in round order ... *)
Definition standings_in_round_order : tables :=
  mk_tables races_2019 [] [] [mk_constructor 7 (Some "McLaren")]
    [after_round_1; after_round_2; after_round_3] [] [] [].

(** ... and with the row of round 3 first in the file. *)
Definition standings_out_of_round_order : tables :=
  mk_tables races_2019 [] [] [mk_constructor 7 (Some "McLaren")]
    [after_round_3; after_round_1; after_round_2] [] [] [].

(** Results whose display column does not follow the position column: the
    second row has no position and no display text, the third has a
    position and the display text of a retirement. *)
Definition display_mismatch : tables :=
  mk_tables
    [ mk_race 2 2012 1 "Australian Grand Prix" "2012-03-18" ]
    [ mk_result 1 2 70 7 "\N" (Some "R") (Some 18) (Some 0%Q) 4;
      mk_result 2 2 71 7 "\N" None (Some 19) (Some 0%Q) 5;
      mk_result 3 2 80 8 "3" (Some "R") (Some 3) (Some 15%Q) 1 ]
    [] [] [] [] [] [].

End Sample.

(** ** What the claims say, over the embedding *)

Module Statements.

Import Config Py Loader Base Json Cache Metrics Routes.







(** A result made of values json reads back unchanged; a [MetricResult]
    has besides, as [__post_init__] requires, a [metadata] that is a dict
    when it is truthy. *)
Definition native_result (r : MetricResult) : bool :=
  json_native (metric_name r) && json_native (value r) &&
  json_native (driver_id r) && json_native (driver_name r) &&
  json_native (constructor_id r) && json_native (constructor_name r) &&
  json_native (season r) && json_native (metadata r) &&
  match metadata r with
  | VDict _ => true
  | m => negb (py_truthy m)
  end.

Definition native_obj (o : pyobj) : bool :=
  match o with
  | OMetric r => native_result r
  | OPlain v => json_native v
  end.



End Statements.

(** ** backend/data/loader.py: the table cache and the teammate pairs *)

Module DataCache.

Import Metrics.

Section frames.

(** The frames are left abstract: [load_csv] only stores and copies
    them. *)
Context {frame : Type}.

(** A file of the dataset directory: a text [pd.read_csv] parses into a
    frame, or one on which it raises. *)
Inductive csv_file :=
  | Parsed (df : frame)
  | Unparsable (e : string).

(** The dataset directory, by file name. *)
Definition dataset_dir : Type := gmap string csv_file.

(** The loader object.  The frames of [_joined_cache] are kept under the
    text of their key. *)
Record F1DataLoader := mk_F1DataLoader {
  _data_cache : gmap string frame;
  _joined_cache : gmap string frame
}.

Definition F1DataLoader__init__ : F1DataLoader := mk_F1DataLoader ∅ ∅.

(** [load_csv]: the frame returned or the exception raised, and the loader
    afterwards. *)
Definition load_csv (fs : dataset_dir) (self : F1DataLoader)
    (filename : string) (use_cache : bool) : outcome frame * F1DataLoader :=
  match (if use_cache then _data_cache self !! filename else None) with
  | Some df => (Return df, self)
  | None =>
      match fs !! filename with
      | None => (Raise "FileNotFoundError", self)
      | Some (Unparsable e) => (Raise e, self)
      | Some (Parsed df) =>
          (Return df,
           if use_cache
           then mk_F1DataLoader (<[filename := df]> (_data_cache self))
                  (_joined_cache self)
           else self)
      end
  end.

(** [clear_cache] *)
Definition clear_cache (self : F1DataLoader) : F1DataLoader :=
  mk_F1DataLoader ∅ ∅.

End frames.

Global Arguments csv_file : clear implicits.
Global Arguments dataset_dir : clear implicits.
Global Arguments F1DataLoader : clear implicits.

End DataCache.

Module Teammates.

Import Config Py Loader.

(** A row of [get_teammate_pairs]. *)
Record teammate_pair := mk_teammate_pair {
  tp_raceId : Z;
  tp_year : Z;
  tp_constructorId : Z;
  tp_driver1_id : Z;
  tp_driver2_id : Z
}.

(** [series.unique()]: the values, each once, in the order of their first
    appearance. *)
Fixpoint unique (l : list Z) : list Z :=
  match l with
  | [] => []
  | x :: l' => x :: filter (λ y, y ≠ x) (unique l')
  end.

(** [get_teammate_pairs]: for every race, in the order of [get_races], and
    every constructor of the race, in the order of the results, the two
    drivers of the constructor when it has exactly two results there. *)
Definition get_teammate_pairs (t : tables) (season : option Z)
    : list teammate_pair :=
  let races := get_races t season in
  let results := get_results t (Some (race_raceId <$> races)) in
  races ≫= λ race,
    let race_results :=
      filter (λ r, res_raceId r = race_raceId race) results in
    unique (res_constructorId <$> race_results) ≫= λ constructor_id,
      let constructor_drivers :=
        filter (λ r, res_constructorId r = constructor_id) race_results in
      match res_driverId <$> constructor_drivers with
      | [driver1; driver2] =>
          [mk_teammate_pair (race_raceId race) (race_year race) constructor_id
             driver1 driver2]
      | _ => []
      end.

End Teammates.

(** ** backend/metrics/driver/race.py: the podium rate *)

Module PodiumRate.

Import Config Py Loader Base Json Cache Metrics.

Definition name : string := "podium_rate".

(** [results[results["positionOrder"] <= 3]]: a comparison with a missing
    value is false. *)
Definition on_podium (r : result) : bool :=
  match res_positionOrder r with
  | Some p => bool_decide (p ≤ 3)
  | None => false
  end.

Definition podiums (results : list result) : list result :=
  filter (λ r, on_podium r = true) results.

(** [results[results["positionOrder"] == n]] *)
Definition placed (n : Z) (results : list result) : list result :=
  filter (λ r, res_positionOrder r = Some n) results.

(** The body of the [try] block. *)
Definition compute (t : tables) (driver_id constructor_id season : option Z)
    (race_ids : option (list Z)) : outcome MetricResult :=
  let results := select_results t driver_id constructor_id season race_ids in
  match results with
  | [] =>
      of_new (new_MetricResult (VStr name) VNone (of_opt_int driver_id) VNone
                (of_opt_int constructor_id) VNone (of_opt_int season)
                (VDict [(KStr "message", VStr "No race results found")]))
  | _ =>
      let podiums := podiums results in
      let podium_rate :=
        if decide (0 < len results)
        then Qred (len podiums * 100 # Pos.of_nat (length results))
        else 0%Q in
      let driver_name := lookup_driver_name t driver_id in
      let wins := len (placed 1 results) in
      let seconds := len (placed 2 results) in
      let thirds := len (placed 3 results) in
      of_new (new_MetricResult (VStr name) (VFloat (round2 podium_rate))
                (of_opt_int driver_id) driver_name
                (of_opt_int constructor_id) VNone (of_opt_int season)
                (VDict
                   [ (KStr "total_races", VInt (len results));
                     (KStr "podium_count", VInt (len podiums));
                     (KStr "wins", VInt wins);
                     (KStr "second_places", VInt seconds);
                     (KStr "third_places", VInt thirds);
                     (KStr "win_rate",
                        if decide (0 < len results)
                        then VFloat (round2 (Qred (wins * 100
                                                   # Pos.of_nat (length results))))
                        else VInt 0) ]))
  end.

Definition calculate (c : MetricCache) (now : Z) (t : tables)
    (driver_id constructor_id season : option Z) (race_ids : option (list Z))
    : outcome pyobj * MetricCache :=
  with_cache name (compute t driver_id constructor_id season race_ids) c now
    (cache_key driver_id constructor_id season race_ids).

End PodiumRate.

(** ** Predicates of the further properties *)

Module Predicates.

Import Py.

(** The characters ['0'..'9'] and ['a'..'f']. *)
Definition is_hex_digit (c : ascii) : Prop :=
  c ∈ String.list_ascii_of_string "0123456789abcdef".

(** The characters of a number as json writes it: the digits and the
    sign. *)
Definition numeric_char (c : ascii) : bool :=
  bool_decide (c ∈ String.list_ascii_of_string "-0123456789").

(** A text that goes on after a number: it has a first character, which
    is not one of a number. *)
Definition terminated (r : list ascii) : Prop :=
  match r with
  | c :: _ => numeric_char c = false
  | [] => False
  end.

(** The value of a hexadecimal digit. *)
Definition hex_value (c : ascii) : option Z :=
  (λ found : nat * ascii, Z.of_nat found.1)
    <$> list_find (λ d, d = c) (String.list_ascii_of_string "0123456789abcdef").

(** Reading back one character of a json string: the character that
    [Json.escape_char] wrote at the head of a text, and the rest of the
    text; nothing at the closing quote. *)
Definition unescape_char (l : list ascii) : option (ascii * list ascii) :=
  match l with
  | [] => None
  | c :: l' =>
      if decide (c = Json.dquote) then None
      else if decide (c = Json.backslash) then
        match l' with
        | [] => None
        | e :: l'' =>
            if decide (e = "u"%char) then
              match l'' with
              | h3 :: h2 :: h1 :: h0 :: rest =>
                  v3 ← hex_value h3; v2 ← hex_value h2;
                  v1 ← hex_value h1; v0 ← hex_value h0;
                  Some (ascii_of_N
                          (Z.to_N (((v3 * 16 + v2) * 16 + v1) * 16 + v0)),
                        rest)
              | _ => None
              end
            else if decide (e = "b"%char) then Some ("008"%char, l'')
            else if decide (e = "f"%char) then Some ("012"%char, l'')
            else if decide (e = "n"%char) then Some ("010"%char, l'')
            else if decide (e = "r"%char) then Some ("013"%char, l'')
            else if decide (e = "t"%char) then Some ("009"%char, l'')
            else Some (e, l'')
        end
      else Some (c, l')
  end.

(** The number the sixteen hexadecimal digits of a cache key write: the
    first two words of the digest. *)
Definition key_number (metric_name : string) (kw : Json.kwargs) : Z :=
  match Sha256.digest_words (Json.encode (Cache.combined metric_name kw)) with
  | a :: b :: _ => a * 2 ^ 32 + b
  | _ => 0
  end.




(** The result every driver race metric builds when no row is selected. *)
Definition no_race_results (name : string)
    (driver_id constructor_id season : option Z) : Base.MetricResult :=
  Base.mk_MetricResult (VStr name) VNone (of_opt_int driver_id) VNone
    (of_opt_int constructor_id) VNone (of_opt_int season)
    (VDict [(KStr "message", VStr "No race results found")]).

End Predicates.

(** * Properties *)

(** ** Frame operations *)

Section frames.

Import Config Py Loader.

Lemma truthy_true (x : option Z) : truthy x = true ↔ ∃ v, x = Some v ∧ v ≠ 0.
Proof.
  destruct x as [v|]; simpl.
  - rewrite negb_true_iff, Z.eqb_neq. split.
    + intros Hv. exists v. done.
    + intros (w & [= <-] & Hw). done.
  - split; [done|]. intros (w & Hw & _). done.
Qed.

Lemma elem_of_merge_left {A B C} (on_l : A → Z) (on_r : B → Z)
    (pair : A → option B → C) (left : list A) (right : list B) (c : C) :
  c ∈ merge_left on_l on_r pair left right ↔
  ∃ a, a ∈ left ∧
    ((c = pair a None ∧ ∀ b, b ∈ right → on_r b ≠ on_l a) ∨
     (∃ b, c = pair a (Some b) ∧ b ∈ right ∧ on_r b = on_l a)).
Proof.
  unfold merge_left. rewrite list_elem_of_bind.
  apply exist_proper; intros a. rewrite (comm and).
  apply and_iff_compat_l.
  pose proof (λ b, list_elem_of_filter (λ b, on_r b = on_l a) right b) as Hin.
  destruct (filter (λ b, on_r b = on_l a) right) as [|b0 bs].
  - rewrite list_elem_of_singleton. split.
    + intros ->. left. split; [done|]. intros b Hb Hk.
      apply (elem_of_nil b), Hin. done.
    + intros [[-> _]|(b & _ & Hb & Hk)]; [done|].
      exfalso. apply (elem_of_nil b), Hin. done.
  - rewrite list_elem_of_fmap. split.
    + intros (b & -> & Hb). right. exists b. apply Hin in Hb. tauto.
    + intros [[_ Hno]|(b & -> & Hb & Hk)].
      * exfalso. destruct (proj1 (Hin b0)) as [Hk Hb]; [left|].
        by apply (Hno b0).
      * exists b. split; [done|]. apply Hin. done.
Qed.

Lemma elem_of_groupby {A K} `{EqDecision K} (le : relation K)
    `{∀ x y, Decision (le x y)} (key : A → option K) (rows : list A)
    (k : K) (g : list A) :
  (k, g) ∈ groupby le key rows ↔
  (∃ r, r ∈ rows ∧ key r = Some k) ∧ g = filter (λ r, key r = Some k) rows.
Proof.
  unfold groupby. rewrite list_elem_of_fmap. split.
  - intros (k' & [= -> ->] & Hk).
    rewrite merge_sort_Permutation, elem_of_remove_dups, list_elem_of_omap in Hk.
    done.
  - intros [Hk ->]. exists k. split; [done|].
    rewrite merge_sort_Permutation, elem_of_remove_dups, list_elem_of_omap.
    done.
Qed.

Lemma NoDup_groupby_keys {A K} `{EqDecision K} (le : relation K)
    `{∀ x y, Decision (le x y)} (key : A → option K) (rows : list A) :
  NoDup ((groupby le key rows).*1).
Proof.
  unfold groupby. rewrite <-list_fmap_compose.
  assert (∀ l : list K,
    fst ∘ (λ k, (k, filter (λ r, key r = Some k) rows)) <$> l = l) as ->.
  { induction l as [|k l IH]; [done|]. simpl. f_equal. exact IH. }
  rewrite merge_sort_Permutation. apply NoDup_remove_dups.
Qed.



End frames.

(** ** The views *)

Section views.

Import Config Py Loader Views.

Lemma elem_of_get_races (t : tables) (season : option Z) (rc : race) :
  rc ∈ get_races t season ↔
  rc ∈ races_csv t ∧ MIN_YEAR ≤ race_year rc ∧
  (truthy season = true → Some (race_year rc) = season).
Proof.
  unfold get_races. rewrite merge_sort_Permutation.
  destruct (truthy season); rewrite ?list_elem_of_filter; naive_solver.
Qed.

Lemma get_races_season_zero (t : tables) :
  get_races t (Some 0) = get_races t None.
Proof. reflexivity. Qed.

Lemma elem_of_get_results (t : tables) (ids : list Z) (r : result) :
  r ∈ get_results t (Some ids) ↔ r ∈ results_csv t ∧ res_raceId r ∈ ids.
Proof. simpl. rewrite list_elem_of_filter. tauto. Qed.

Lemma race_ids_or_absent (race_ids : option (list Z)) (races : list race) :
  truthy_list race_ids = false → race_ids_or race_ids races = race_raceId <$> races.
Proof. by destruct race_ids as [[|??]|]. Qed.

Lemma race_ids_or_explicit (race_ids : option (list Z)) (races : list race) :
  truthy_list race_ids = true → Some (race_ids_or race_ids races) = race_ids.
Proof. by destruct race_ids as [[|??]|]. Qed.



(** The rows of the results joined with the races of a season. *)
Lemma elem_of_results_races {A} (t : tables) (season : option Z)
    (on : A → Z) (rows : list A) (row : A * option race) :
  row ∈ merge_left on race_raceId (λ r rc, (r, rc)) rows (get_races t season) →
  row.1 ∈ rows ∧ ∀ rc, row.2 = Some rc → rc ∈ get_races t season ∧ race_raceId rc = on row.1.
Proof.
  rewrite elem_of_merge_left.
  intros (a & Ha & [[-> _]|(b & -> & Hb & Hk)]); simpl; [done|].
  split; [done|]. by intros ? [= <-].
Qed.





End views.

Section season_floor.

Import Config Py Loader Views.








End season_floor.

Section explicit_list.

Import Config Py Loader Views Metrics.









End explicit_list.

(** ** Joint aggregation per (race, constructor) *)

Section joint_aggregation.

Import Config Py Loader Views.

Lemma filter_ext_elem {A} (P Q : A → Prop) `{!∀ x, Decision (P x)}
    `{!∀ x, Decision (Q x)} (l : list A) :
  (∀ x, x ∈ l → (P x ↔ Q x)) → filter P l = filter Q l.
Proof.
  induction l as [|a l IH]; intros Hext; [done|].
  rewrite !filter_cons.
  rewrite IH by (intros x Hx; apply Hext; by right).
  apply decide_ext, Hext. left.
Qed.

Lemma filter_all {A} (P : A → Prop) `{!∀ x, Decision (P x)} (l : list A) :
  (∀ x, x ∈ l → P x) → filter P l = l.
Proof.
  induction l as [|a l IH]; intros Hall; [done|].
  rewrite filter_cons_True by (apply Hall; left).
  f_equal. apply IH. intros x Hx. apply Hall. by right.
Qed.

Lemma filter_none {A} (P : A → Prop) `{!∀ x, Decision (P x)} (l : list A) :
  (∀ x, x ∈ l → ¬ P x) → filter P l = [].
Proof.
  induction l as [|a l IH]; intros Hall; [done|].
  rewrite filter_cons_False by (apply Hall; left).
  apply IH. intros x Hx. apply Hall. by right.
Qed.

Lemma NoDup_fmap_elem_inj {A B} (f : A → B) (l : list A) (x y : A) :
  NoDup (f <$> l) → x ∈ l → y ∈ l → f x = f y → x = y.
Proof.
  induction l as [|a l IH]; intros Hnd Hx Hy Hf; [by apply elem_of_nil in Hx|].
  simpl in Hnd. apply NoDup_cons in Hnd as [Ha Hnd].
  apply elem_of_cons in Hx as [->|Hx], Hy as [->|Hy]; auto.
  - exfalso. apply Ha. rewrite Hf. by apply list_elem_of_fmap_2.
  - exfalso. apply Ha. rewrite <-Hf. by apply list_elem_of_fmap_2.
Qed.

Lemma filter_unique {A} (P : A → Prop) `{!∀ x, Decision (P x)} (l : list A)
    (x : A) :
  NoDup l → x ∈ l → P x → (∀ y, y ∈ l → P y → y = x) → filter P l = [x].
Proof.
  induction l as [|a l IH]; intros Hnd Hx HP Huniq; [by apply elem_of_nil in Hx|].
  apply NoDup_cons in Hnd as [Ha Hnd].
  apply elem_of_cons in Hx as [->|Hx].
  - rewrite filter_cons_True by done. f_equal. apply filter_none.
    intros y Hy HPy. apply Ha. rewrite <-(Huniq y); [done|by right|done].
  - rewrite filter_cons_False.
    + apply IH; auto. intros y Hy. apply Huniq. by right.
    + intros HPa. apply Ha. rewrite (Huniq a); [done|left|done].
Qed.

(** With a key column that is unique, a key has its one row. *)
Lemma filter_key_unique {A} (key : A → Z) (l : list A) (x : A) :
  NoDup (key <$> l) → x ∈ l → filter (λ y, key y = key x) l = [x].
Proof.
  intros Hnd Hx. apply filter_unique; [by eapply NoDup_fmap_1|done..|].
  intros y Hy Hk. by eapply NoDup_fmap_elem_inj.
Qed.

Lemma filter_key_at_most_one {A} (key : A → Z) (l : list A) (k : Z) :
  NoDup (key <$> l) →
  filter (λ y, key y = k) l = [] ∨ ∃ x, filter (λ y, key y = k) l = [x].
Proof.
  intros Hnd. destruct (filter (λ y, key y = k) l) as [|x xs] eqn:Hf; [by left|].
  right. exists x.
  assert (x ∈ filter (λ y, key y = k) l) as Hx by (rewrite Hf; left).
  apply list_elem_of_filter in Hx as [<- Hx].
  rewrite <-Hf. by apply filter_key_unique.
Qed.

(** A filter on the left rows of a left join can be done before the join. *)
Lemma filter_merge_left {A B C} (on_l : A → Z) (on_r : B → Z)
    (pair : A → option B → C) (P : C → Prop) (Q : A → Prop)
    `{!∀ x, Decision (P x)} `{!∀ x, Decision (Q x)}
    (left : list A) (right : list B) :
  (∀ a ob, P (pair a ob) ↔ Q a) →
  filter P (merge_left on_l on_r pair left right)
  = merge_left on_l on_r pair (filter Q left) right.
Proof.
  intros HPQ. unfold merge_left.
  induction left as [|a left IH]; [done|].
  rewrite bind_cons, filter_app, IH, filter_cons.
  destruct (decide (Q a)) as [HQ|HQ].
  - rewrite bind_cons. f_equal. apply filter_all. intros c.
    destruct (filter (λ b, on_r b = on_l a) right).
    + intros ->%list_elem_of_singleton. by apply HPQ.
    + intros (b' & -> & _)%list_elem_of_fmap. by apply HPQ.
  - rewrite filter_none; [done|]. intros c.
    destruct (filter (λ b, on_r b = on_l a) right).
    + intros ->%list_elem_of_singleton. by rewrite HPQ.
    + intros (b' & -> & _)%list_elem_of_fmap. by rewrite HPQ.
Qed.

Lemma get_races_NoDup (t : tables) (season : option Z) :
  NoDup (race_raceId <$> races_csv t) →
  NoDup (race_raceId <$> get_races t season).
Proof.
  intros Hnd. unfold get_races. rewrite merge_sort_Permutation.
  assert (∀ (P : race → Prop) `{!∀ x, Decision (P x)} l,
    NoDup (race_raceId <$> l) → NoDup (race_raceId <$> filter P l)) as Hfilter.
  { intros P ? l. induction l as [|a l IH]; [done|]. simpl.
    rewrite NoDup_cons. intros [Ha Hl]. rewrite filter_cons.
    destruct (decide (P a)); [|auto]. simpl. apply NoDup_cons. split; [|auto].
    intros (x & Hx & Hin)%list_elem_of_fmap. apply Ha.
    apply list_elem_of_filter in Hin as [_ Hin]. rewrite Hx.
    by apply list_elem_of_fmap_2. }
  destruct (truthy season); auto.
Qed.

End joint_aggregation.

Section race_wins.

Import Config Py Loader Views.

Lemma filter_fmap {A B} (f : A → B) (P : B → Prop) `{!∀ x, Decision (P x)}
    (l : list A) :
  filter P (f <$> l) = f <$> filter (λ x, P (f x)) l.
Proof.
  induction l as [|a l IH]; [done|]. rewrite fmap_cons, !filter_cons, IH.
  by destruct (decide (P (f a))).
Qed.

Context (t : tables) (season constructor_id : option Z).
Context (rc : race) (c : Z) (a b : result).

Hypothesis races_key : NoDup (race_raceId <$> races_csv t).
Hypothesis constructors_key : NoDup (con_constructorId <$> constructors_csv t).
Hypothesis race_in_scope : rc ∈ get_races t season.
Hypothesis constructor_in_scope :
  truthy constructor_id = true → constructor_id = Some c.
Hypothesis two_cars :
  filter (λ r, res_raceId r = race_raceId rc ∧ res_constructorId r = c)
    (results_csv t) = [a; b].

Local Abbreviation of_pair :=
  (λ r, res_raceId r = race_raceId rc ∧ res_constructorId r = c).

Lemma two_cars_ids :
  (res_raceId a = race_raceId rc ∧ res_constructorId a = c) ∧
  (res_raceId b = race_raceId rc ∧ res_constructorId b = c).
Proof.
  assert (a ∈ filter of_pair (results_csv t)) as Ha by (rewrite two_cars; left).
  assert (b ∈ filter of_pair (results_csv t)) as Hb
    by (rewrite two_cars; right; left).
  apply list_elem_of_filter in Ha, Hb. tauto.
Qed.

(** The rows of the view for the pair: one per car, with the race. *)
Lemma pair_rows :
  ∃ ca cb,
    filter (λ row, cr_raceId row = race_raceId rc ∧ cr_constructorId row = c)
      (get_constructor_results t season constructor_id)
    = [ mk_constructor_result a (Some rc) ca (to_numeric (res_position a))
          (default 0%Q (res_points a));
        mk_constructor_result b (Some rc) cb (to_numeric (res_position b))
          (default 0%Q (res_points b)) ].
Proof.
  destruct two_cars_ids as [[Ha1 Ha2] [Hb1 Hb2]].
  unfold get_constructor_results.
  rewrite (filter_merge_left _ _ _ _
             (λ rr : result * option race, of_pair rr.1)) by done.
  rewrite (filter_merge_left _ _ _ _ of_pair) by done.
  assert ((filter of_pair
             (if truthy constructor_id
              then filter (λ r, Some (res_constructorId r) = constructor_id)
                     (get_results t (Some (race_raceId <$> get_races t season)))
              else get_results t (Some (race_raceId <$> get_races t season))))
          = [a; b]) as ->.
  { rewrite <-two_cars. simpl.
    destruct (truthy constructor_id) eqn:Ht.
    - rewrite !list_filter_filter. apply list_filter_iff. intros r.
      rewrite (constructor_in_scope eq_refl). split; [tauto|].
      intros [Hr1 Hr2]. split_and!; [done..|by rewrite Hr2|].
      rewrite Hr1. by apply list_elem_of_fmap_2.
    - rewrite !list_filter_filter. apply list_filter_iff. intros r.
      split; [tauto|]. intros [Hr1 Hr2]. split_and!; [done..|].
      rewrite Hr1. by apply list_elem_of_fmap_2. }
  pose proof (filter_key_unique race_raceId (get_races t season) rc
                (get_races_NoDup t season races_key) race_in_scope) as Hrc.
  unfold merge_left at 2. simpl. rewrite Ha1, Hb1, Hrc. simpl.
  unfold merge_left. simpl. rewrite Ha2, Hb2.
  destruct (filter_key_at_most_one con_constructorId (constructors_csv t) c
              constructors_key) as [->|[x ->]]; simpl; eauto.
Qed.

Local Abbreviation k := (race_raceId rc, (c, (race_year rc, race_round rc))).

(** The rows of a key of the pair's race and constructor are the pair's. *)
Lemma pair_group (k' : Z * (Z * (Z * Z))) :
  k'.1 = race_raceId rc → k'.2.1 = c →
  (∃ r, r ∈ get_constructor_results t season constructor_id ∧
        race_constructor_key r = Some k') →
  k' = k ∧
  ∃ ca cb,
    filter (λ row, race_constructor_key row = Some k')
      (get_constructor_results t season constructor_id)
    = [ mk_constructor_result a (Some rc) ca (to_numeric (res_position a))
          (default 0%Q (res_points a));
        mk_constructor_result b (Some rc) cb (to_numeric (res_position b))
          (default 0%Q (res_points b)) ].
Proof.
  intros Hk1 Hk2 (r & Hr & Hkey).
  destruct two_cars_ids as [[Ha1 Ha2] [Hb1 Hb2]].
  destruct pair_rows as (ca & cb & Hrows).
  assert (∀ row, race_constructor_key row = Some k' →
            cr_raceId row = race_raceId rc ∧ cr_constructorId row = c) as Himp.
  { intros row. unfold race_constructor_key.
    destruct (cr_race row); [|done]. intros [= <-]. simpl in Hk1, Hk2. done. }
  assert (k' = k) as ->.
  { assert (r ∈ filter (λ row, cr_raceId row = race_raceId rc ∧
                                cr_constructorId row = c)
                  (get_constructor_results t season constructor_id)) as Hin
      by (apply list_elem_of_filter; auto).
    rewrite Hrows in Hin. unfold race_constructor_key in Hkey.
    apply elem_of_cons in Hin as [->|Hin];
      [|apply list_elem_of_singleton in Hin as ->];
      simpl in Hkey; injection Hkey as <-; unfold cr_raceId, cr_constructorId;
      simpl; by rewrite ?Ha1, ?Ha2, ?Hb1, ?Hb2. }
  split; [done|]. exists ca, cb.
  rewrite <-(list_filter_filter_l _
    (λ row, cr_raceId row = race_raceId rc ∧ cr_constructorId row = c))
    by exact Himp.
  rewrite Hrows. rewrite !filter_cons, filter_nil.
  unfold race_constructor_key, cr_raceId, cr_constructorId. simpl.
  rewrite Ha1, Ha2, Hb1, Hb2. by rewrite !decide_True by done.
Qed.

Hypothesis first_and_second :
  (to_numeric (res_position a) = Some 1 ∧ to_numeric (res_position b) = Some 2) ∨
  (to_numeric (res_position a) = Some 2 ∧ to_numeric (res_position b) = Some 1).

(** C8.  Constructor joint aggregation: for a race of the view's scope in
    which the two cars of a constructor finish first and second, the
    constructor-race-win view has exactly one row for the (race,
    constructor) pair, with best_position 1, worst_position 2 and
    drivers_count 2; race ids and constructor ids are the keys of their
    tables. *)
Theorem constructor_joint_aggregation :
  ∃ w,
    filter (λ w, rw_raceId w = race_raceId rc ∧ rw_constructorId w = c)
      (get_constructor_race_wins t season constructor_id) = [w] ∧
    rw_best_position w = Some 1 ∧
    rw_worst_position w = Some 2 ∧
    rw_drivers_count w = 2.
Proof.
  destruct two_cars_ids as [[Ha1 Ha2] [Hb1 Hb2]].
  set (results := get_constructor_results t season constructor_id).
  set (G := groupby key4_le race_constructor_key results).
  destruct pair_rows as (ca0 & cb0 & Hrows0). fold results in Hrows0.
  assert (∃ r, r ∈ results ∧ race_constructor_key r = Some k) as Hex.
  { eexists. split.
    - eapply (proj1 (list_elem_of_filter _ _ _)). rewrite Hrows0. left.
    - unfold race_constructor_key, cr_raceId, cr_constructorId. simpl.
      by rewrite Ha1, Ha2. }
  destruct (pair_group k eq_refl eq_refl Hex) as (_ & ca & cb & Hgroup).
  fold results in Hgroup.
  set (g := [ mk_constructor_result a (Some rc) ca (to_numeric (res_position a))
                (default 0%Q (res_points a));
              mk_constructor_result b (Some rc) cb (to_numeric (res_position b))
                (default 0%Q (res_points b)) ]) in *.
  assert ((k, g) ∈ G) as HG by (apply elem_of_groupby; done).
  set (mk := λ g : (Z * (Z * (Z * Z))) * list constructor_result,
     mk_race_win g.1.1 g.1.2.1 g.1.2.2.1 g.1.2.2.2
       (agg_min (cr_position <$> g.2)) (agg_max (cr_position <$> g.2))
       (agg_count (cr_position <$> g.2)) (agg_sum (cr_points <$> g.2))).
  assert (rw_best_position (mk (k, g)) = Some 1 ∧
          rw_worst_position (mk (k, g)) = Some 2 ∧
          rw_drivers_count (mk (k, g)) = 2) as Hagg.
  { unfold mk, g. simpl.
    destruct first_and_second as [[-> ->]|[-> ->]]; done. }
  exists (mk (k, g)). split; [|done].
  unfold get_constructor_race_wins, race_results. fold results G mk.
  rewrite list_filter_filter, filter_fmap.
  rewrite (filter_unique _ G (k, g)); [done| |done| |].
  - eapply NoDup_fmap_1, NoDup_groupby_keys.
  - simpl. tauto.
  - intros [k' g'] Hin [[Hk1 Hk2] _]. simpl in Hk1, Hk2.
    apply elem_of_groupby in Hin as [Hex' ->].
    destruct (pair_group k' Hk1 Hk2 Hex') as (-> & _). by rewrite Hgroup.
Qed.

End race_wins.

Lemma constructor_joint_aggregation_witness :
  ∃ w,
    filter (λ w, Loader.rw_raceId w = 2 ∧ Loader.rw_constructorId w = 7)
      (Loader.get_constructor_race_wins Sample.dataset (Some 2012) (Some 7))
    = [w] ∧
    Loader.rw_best_position w = Some 1 ∧
    Loader.rw_worst_position w = Some 2 ∧
    Loader.rw_drivers_count w = 2.
Proof.
  apply (constructor_joint_aggregation Sample.dataset (Some 2012) (Some 7)
           (Loader.mk_race 2 2012 1 "Australian Grand Prix" "2012-03-18") 7
           (Sample.res 3 2 70 7 "2" "2" 2 18) (Sample.res 4 2 71 7 "1" "1" 1 25)).
  - apply (bool_decide_unpack _). vm_compute. exact I.
  - apply (bool_decide_unpack _). vm_compute. exact I.
  - apply elem_of_get_races. split_and!; [|done..].
    vm_compute. right. right. left.
  - done.
  - vm_compute. reflexivity.
  - right. split; vm_compute; reflexivity.
Defined.

(** ** Season standings *)

Section standings.

Import Config Py Loader Views.

Lemma agg_last_last {A B} (f : A → option B) (g : list A) (x : A) (v : B) :
  last g = Some x → f x = Some v → agg_last (f <$> g) = Some v.
Proof.
  intros (g' & ->)%last_Some Hf. unfold agg_last.
  rewrite fmap_app, omap_app. simpl. rewrite Hf. simpl. apply last_snoc.
Qed.

(** What the view reports for a group is its last row in frame order, when
    that row has a value in every column. *)
Lemma last_of_group_last_row (key : Z * Z) (g : list standing_with_year)
    (s : standing) (rc : race) (id position wins : Z) (points : Q)
    (positionText : string) :
  last g = Some (s, Some rc) →
  s = mk_standing (Some id) (cs_raceId s) (cs_constructorId s) (Some points)
        (Some position) (Some positionText) (Some wins) →
  last_of_group (key, g)
  = mk_final_standing key.1 key.2 (Some id) (Some (cs_raceId s)) (Some points)
      (Some position) (Some positionText) (Some wins) (Some (race_round rc)).
Proof.
  intros Hlast Hs. unfold last_of_group. simpl.
  rewrite (agg_last_last _ g _ id Hlast) by (by rewrite Hs).
  rewrite (agg_last_last _ g _ (cs_raceId s) Hlast) by done.
  rewrite (agg_last_last _ g _ points Hlast) by (by rewrite Hs).
  rewrite (agg_last_last _ g _ position Hlast) by (by rewrite Hs).
  rewrite (agg_last_last _ g _ positionText Hlast) by (by rewrite Hs).
  rewrite (agg_last_last _ g _ wins Hlast) by (by rewrite Hs).
  by rewrite (agg_last_last _ g _ (race_round rc) Hlast) by done.
Qed.

(** The example of the specification, with the rows in round order: the
    standing of round 3 is reported, 40 points and not the sum 75. *)
Lemma standings_in_round_order_example :
  get_constructor_championship_positions Sample.standings_in_round_order
    (Some 2019)
  = [ mk_final_standing 2019 7 (Some 103) (Some 1012) (Some 40%Q) (Some 1)
        (Some "1") (Some 1) (Some 3) ].
Proof. vm_compute. reflexivity. Qed.

(** C6, on the failing input.  With the row of round 3 first in
    constructor_standings.csv, the view reports for (2019, constructor 7)
    the standing of round 2, 25 points: the last row of the group in file
    order, not the row with the greatest round number (40 points). *)
Theorem standings_last_row_not_last_round :
  get_constructor_championship_positions Sample.standings_out_of_round_order
    (Some 2019)
  = [ mk_final_standing 2019 7 (Some 102) (Some 1011) (Some 25%Q) (Some 2)
        (Some "2") (Some 0) (Some 2) ].
Proof. vm_compute. reflexivity. Qed.

End standings.

(** ** Driver race metrics *)

Section metrics.

Import Config Py Loader Base Json Cache Metrics Routes Views Statements.





End metrics.

Section dnf.

Import Config Py Loader Base Json Cache Metrics Routes Views Statements.


(** The average finish position is taken over the rows with a positive
    [positionOrder]: the retirement of team 8 in race 2, whose position is
    the sentinel, is one of the five rows averaged over. *)
Lemma average_counts_retirements :
  ∃ m,
    AverageFinishPosition.compute Sample.dataset None None None None = Return m ∧
    metadata_get m "total_races" = Some (VInt 5) ∧
    metadata_get m "finished_races" = Some (VInt 5) ∧
    metadata_get m "dnf_count" = Some (VInt 0).
Proof. eexists. split; [vm_compute; reflexivity|]. by split_and!. Qed.



End dnf.

(** ** Zero-valued parameters *)

Section zero_parameters.

Import Config Py Loader Base Json Cache Metrics Routes Views Statements.


(** A zero parameter selects the rows an omitted one selects. *)
Lemma select_results_zero (t : tables)
    (driver_id constructor_id season : option Z) (race_ids : option (list Z)) :
  select_results t (Some 0) constructor_id season race_ids
    = select_results t None constructor_id season race_ids ∧
  select_results t driver_id (Some 0) season race_ids
    = select_results t driver_id None season race_ids ∧
  select_results t driver_id constructor_id (Some 0) race_ids
    = select_results t driver_id constructor_id None race_ids.
Proof. done. Qed.


Lemma dnf_rate_zero (t : tables)
    (driver_id constructor_id season : option Z) (race_ids : option (list Z)) :
  DNFRate.compute t (Some 0) constructor_id season race_ids
    = map_outcome (set_driver_id (VInt 0))
        (DNFRate.compute t None constructor_id season race_ids) ∧
  DNFRate.compute t driver_id (Some 0) season race_ids
    = map_outcome (set_constructor_id (VInt 0))
        (DNFRate.compute t driver_id None season race_ids) ∧
  DNFRate.compute t driver_id constructor_id (Some 0) race_ids
    = map_outcome (set_season (VInt 0))
        (DNFRate.compute t driver_id constructor_id None race_ids).
Proof.
  unfold DNFRate.compute.
  destruct (select_results_zero t driver_id constructor_id season race_ids)
    as (-> & -> & ->).
  split_and!.
  - by destruct (select_results t None constructor_id season race_ids).
  - by destruct (select_results t driver_id None season race_ids).
  - by destruct (select_results t driver_id constructor_id None race_ids).
Qed.

(** Every view returns for a zero season or entity id the frame it returns
    when the parameter is omitted. *)
Lemma views_zero (t : tables) (x : option Z) (race_ids : option (list Z)) :
  get_races t (Some 0) = get_races t None ∧
  get_driver_results_with_names t (Some 0) x race_ids
    = get_driver_results_with_names t None x race_ids ∧
  get_driver_results_with_names t x (Some 0) race_ids
    = get_driver_results_with_names t x None race_ids ∧
  get_constructor_standings t (Some 0) = get_constructor_standings t None ∧
  get_constructor_championship_positions t (Some 0)
    = get_constructor_championship_positions t None ∧
  get_constructor_results t (Some 0) x = get_constructor_results t None x ∧
  get_constructor_results t x (Some 0) = get_constructor_results t x None ∧
  get_constructor_race_wins t (Some 0) x = get_constructor_race_wins t None x ∧
  get_constructor_race_wins t x (Some 0) = get_constructor_race_wins t x None ∧
  get_constructor_podium_lockouts t (Some 0) x
    = get_constructor_podium_lockouts t None x ∧
  get_constructor_podium_lockouts t x (Some 0)
    = get_constructor_podium_lockouts t x None ∧
  get_constructor_points_data t (Some 0) x = get_constructor_points_data t None x ∧
  get_constructor_points_data t x (Some 0) = get_constructor_points_data t x None ∧
  get_constructor_qualifying_performance t (Some 0) x
    = get_constructor_qualifying_performance t None x ∧
  get_constructor_qualifying_performance t x (Some 0)
    = get_constructor_qualifying_performance t x None ∧
  get_constructor_pit_stop_stats t (Some 0) x
    = get_constructor_pit_stop_stats t None x ∧
  get_constructor_pit_stop_stats t x (Some 0)
    = get_constructor_pit_stop_stats t x None ∧
  get_constructor_lap_times t (Some 0) x = get_constructor_lap_times t None x ∧
  get_constructor_lap_times t x (Some 0) = get_constructor_lap_times t x None.
Proof. split_and!; reflexivity. Qed.

(** The constructor endpoints answer a request with constructor id 0 as
    they answer one without constructor id. *)
Lemma constructor_routes_zero (reg : registry) (c : MetricCache) (now : Z)
    (t : tables) (metric_name : string) (metric_names : list string)
    (driver_id season : option Z) (race_ids : option (list Z)) :
  let zero := mk_MetricRequest driver_id (Some 0) season race_ids in
  let none := mk_MetricRequest driver_id None season race_ids in
  calculate_constructor_metric reg c now t metric_name zero
    = calculate_constructor_metric reg c now t metric_name none ∧
  calculate_multiple_constructor_metrics reg c now t metric_names zero
    = calculate_multiple_constructor_metrics reg c now t metric_names none ∧
  calculate_multiple_constructor_metrics reg c now t metric_names zero
    = (HTTPException 400 constructor_id_required, c) ∧
  match lookup reg metric_name with
  | Some _ =>
      calculate_constructor_metric reg c now t metric_name zero
        = (HTTPException 400 constructor_id_required, c)
  | None =>
      ∃ d, calculate_constructor_metric reg c now t metric_name zero
             = (HTTPException 404 d, c)
  end.
Proof.
  unfold calculate_constructor_metric, calculate_multiple_constructor_metrics.
  simpl. destruct (lookup reg metric_name); split_and!; eauto.
Qed.


End zero_parameters.

(** ** Bulk routes *)

Section bulk.

Import Config Py Loader Base Json Cache Metrics Routes Views Statements.

Context (reg : registry) (now : Z) (t : tables) (request : MetricRequest).

Local Abbreviation step := (bulk_step reg now t request).








End bulk.

Section bulk_examples.

Import Config Py Loader Base Json Cache Metrics Routes Views Statements.



End bulk_examples.

(** ** The metric cache *)

Section json_values.

Import Config Py Loader Base Json Cache Metrics Routes Views Statements.

(** Induction on Python values, through lists and dicts. *)
Lemma pyval_rect' (P : pyval → Prop) :
  P VNone → (∀ b, P (VBool b)) → (∀ z, P (VInt z)) → (∀ q, P (VFloat q)) →
  (∀ s, P (VStr s)) →
  (∀ l, Forall P l → P (VList l)) →
  (∀ d, Forall (λ kv, P kv.2) d → P (VDict d)) →
  (∀ z, P (VNpInt z)) → (∀ q, P (VNpFloat64 q)) → (∀ b, P (VNpBool b)) →
  ∀ v, P v.
Proof.
  intros HNone HBool HInt HFloat HStr HList HDict HNpInt HNpFloat HNpBool.
  fix IH 1. intros [ |b|z|q|s|l|d|z|q|b].
  - exact HNone.
  - apply HBool.
  - apply HInt.
  - apply HFloat.
  - apply HStr.
  - apply HList. induction l as [|x l IHl]; constructor; [apply IH|exact IHl].
  - apply HDict.
    induction d as [|[k x] d IHd]; constructor; [apply IH|exact IHd].
  - apply HNpInt.
  - apply HNpFloat.
  - apply HNpBool.
Qed.

Lemma load_items_distinct (acc : list (pykey * pyval))
    (items : list (string * pyval)) :
  NoDup (acc.*1 ++ (KStr <$> items.*1)) →
  foldl (λ d kv, dict_set d (KStr kv.1) kv.2) acc items
  = acc ++ (prod_map KStr id <$> items).
Proof.
  revert acc. induction items as [|[k x] items IH]; intros acc Hnd; simpl.
  - by rewrite app_nil_r.
  - assert (dict_set acc (KStr k) x = acc ++ [(KStr k, x)]) as ->.
    { apply NoDup_app in Hnd as (_ & Hdisj & _).
      assert (KStr k ∉ acc.*1) as Hk by (intros ?; eapply Hdisj; [done|left]).
      clear -Hk. induction acc as [|[k' x'] acc IH]; [done|]. simpl in *.
      rewrite not_elem_of_cons in Hk. destruct Hk as [Hne Hk].
      rewrite decide_False by done. by rewrite IH. }
    rewrite IH.
    + by rewrite <-app_assoc.
    + rewrite fmap_app. simpl. rewrite <-app_assoc. exact Hnd.
Qed.

(** json reads back a native value as it was written. *)
Lemma dump_load_native (v : pyval) : json_native v = true → dump_load v = v.
Proof.
  induction v as [ |b|z|q|s|l IH|d IH|z|q|b] using pyval_rect';
    simpl; intros Hn; try done.
  - f_equal. induction l as [|x l IHl]; [done|].
    apply andb_prop in Hn as [Hx Hl]. apply Forall_cons in IH as [IHx IH].
    rewrite IHx by done. f_equal. by apply IHl.
  - apply andb_prop in Hn as [Hnd Hall]. apply bool_decide_eq_true in Hnd.
    f_equal.
    set (items := (fix items (d : list (pykey * pyval)) :=
                     match d with
                     | [] => []
                     | (k, x) :: d' => (key_text k, dump_load x) :: items d'
                     end)).
    assert (prod_map KStr id <$> items d = d) as Hitems.
    { clear Hnd. induction d as [|[k x] d IHd]; [done|].
      apply Forall_cons in IH as [IHx IH]. simpl in *.
      destruct k as [s|z]; [|done]. apply andb_prop in Hall as [Hx Hall].
      unfold prod_map. simpl. rewrite IHx by done. f_equal. by apply IHd. }
    unfold load_items. fold items. rewrite load_items_distinct.
    + by rewrite Hitems.
    + simpl. rewrite <-Hitems in Hnd. rewrite <-list_fmap_compose in Hnd.
      rewrite <-list_fmap_compose. exact Hnd.
Qed.

(** [_serialize_value] leaves a native value as it is. *)
Lemma _serialize_value_native (v : pyval) :
  json_native v = true → _serialize_value v = v.
Proof.
  induction v as [ |b|z|q|s|l IH|d IH|z|q|b] using pyval_rect';
    simpl; intros Hn; try done.
  - f_equal. induction l as [|x l IHl]; [done|].
    apply andb_prop in Hn as [Hx Hl]. apply Forall_cons in IH as [IHx IH].
    rewrite IHx by done. f_equal. by apply IHl.
  - apply andb_prop in Hn as [_ Hall]. f_equal.
    induction d as [|[k x] d IHd]; [done|].
    apply Forall_cons in IH as [IHx IH]. simpl in *.
    destruct k as [s|z]; [|done]. apply andb_prop in Hall as [Hx Hall].
    rewrite IHx by done. f_equal. by apply IHd.
Qed.

Lemma _serialize_dict_native (d : list (pykey * pyval)) :
  json_native (VDict d) = true → _serialize_dict d = d.
Proof.
  intros Hn. pose proof (_serialize_value_native (VDict d) Hn) as Hs.
  simpl in Hs. injection Hs as Hs. etrans; [|exact Hs].
  unfold _serialize_dict. clear.
  induction d as [|[k x] d IH]; [done|]. rewrite fmap_cons. f_equal. exact IH.
Qed.

End json_values.

Section deep_equality.

Import Config Py Loader Base Json Cache Metrics Routes Views Statements.





End deep_equality.

Section cache.

Import Config Py Loader Base Json Cache Metrics Routes Views Statements.

(** What [get] rebuilds from the document [set] wrote for a native result
    is that result. *)
Lemma load_result_set (metric_name : string) (result : pyobj) (now : Z)
    (kw : kwargs) :
  native_obj result = true →
  load_result
    (mk_document metric_name
       (dump_load match result with
                  | OMetric r => VDict (__dict__ r)
                  | OPlain v => v
                  end)
       (type_name result) now kw)
  = result.
Proof.
  destruct result as [r|v]; intros Hn.
  - destruct r as [name v did dname cid cname s md].
    unfold native_obj, native_result in Hn. cbn [Base.metric_name Base.value
      Base.driver_id Base.driver_name Base.constructor_id Base.constructor_name
      Base.season Base.metadata] in Hn.
    repeat (apply andb_prop in Hn as [Hn ?]).
    rewrite dump_load_native.
    + unfold load_result.
      cbn [doc_result_type doc_result type_name]. rewrite decide_True by done.
      unfold MetricResult_of_kwargs, __dict__.
      cbn [forallb is_field fst snd Base.metric_name Base.value
        Base.driver_id Base.driver_name Base.constructor_id
        Base.constructor_name Base.season Base.metadata andb].
      assert (∀ k, k ∈ field_names → bool_decide (k ∈ field_names) = true) as Hf
        by (intros; by apply bool_decide_eq_true).
      rewrite !Hf by (vm_compute; set_solver).
      cbn [andb]. simpl dict_get. cbn [mbind option_bind default id].
      unfold new_MetricResult, __post_init__.
      cbn [Base.metric_name Base.value Base.driver_id Base.driver_name
        Base.constructor_id Base.constructor_name Base.season Base.metadata].
      rewrite (_serialize_value_native v) by done.
      destruct md as [ |b|z|q|str|l|d|z|q|b]; cbn [py_truthy] in *;
        repeat match goal with
               | H : negb ?b = true |- _ => apply negb_true_iff in H; rewrite H
               end; try done.
      destruct (negb (bool_decide (length d = 0%nat))); [|done].
      by rewrite _serialize_dict_native.
    + unfold __dict__.
      cbn [Base.metric_name Base.value Base.driver_id Base.driver_name
        Base.constructor_id Base.constructor_name Base.season Base.metadata].
      cbn [json_native]. apply andb_true_intro. split.
      * apply bool_decide_eq_true. apply (bool_decide_unpack _).
        vm_compute. exact I.
      * by repeat (apply andb_true_intro; split).
  - unfold load_result. cbn [doc_result_type doc_result].
    rewrite decide_False by (by destruct v).
    by rewrite dump_load_native.
Qed.



(** The file a [set] leaves under the key. *)
Lemma files_set (c : MetricCache) (now : Z) (metric_name : string)
    (result : pyobj) (kw : kwargs) :
  enabled c = true →
  files (set c now metric_name result kw) !! _generate_key metric_name kw
  = Some (mk_file now
            (Document
               (mk_document metric_name
                  (dump_load match result with
                             | OMetric r => VDict (__dict__ r)
                             | OPlain v => v
                             end)
                  (type_name result) now kw))).
Proof. intros Hen. unfold set. rewrite Hen. simpl. apply lookup_insert_eq. Qed.




End cache.


(** * Further properties of the code *)

(** ** The cache key *)

Section cache_key.

Import Config Py Base Json Cache Predicates.

Global Instance item_le_trans : Transitive item_le.
Proof. intros a b c. unfold item_le. apply transitivity. Qed.

Global Instance item_le_total : Total item_le.
Proof. intros a b. unfold item_le. apply total, _. Qed.

(** Sorting by key forgets the insertion order of a dict. *)
Lemma sorted_items_permutation (p1 p2 : kwargs) :
  NoDup p1.*1 → p1 ≡ₚ p2 → sorted_items p1 = sorted_items p2.
Proof.
  intros Hnd Hperm. unfold sorted_items.
  apply (Sorted_unique_strong item_le).
  - intros x1 x2 Hx1 Hx2 H12 H21.
    rewrite merge_sort_Permutation in Hx1, Hx2. rewrite <-Hperm in Hx2.
    eapply (NoDup_fmap_elem_inj fst p1); [done..|].
    unfold item_le in *. by apply (anti_symm String.le).
  - apply Sorted_merge_sort, _.
  - apply Sorted_merge_sort, _.
  - by rewrite !merge_sort_Permutation.
Qed.

(** X1.  The cache key does not depend on the order in which the
    parameters were given. *)
Theorem generate_key_order_independent (metric_name : string) (p1 p2 : kwargs) :
  NoDup p1.*1 → p1 ≡ₚ p2 →
  _generate_key metric_name p1 = _generate_key metric_name p2.
Proof.
  intros Hnd Hperm. unfold _generate_key, combined, dumps.
  by rewrite (sorted_items_permutation p1 p2).
Qed.

Lemma generate_key_order_independent_witness :
  _generate_key "dnf_rate" [("season", PInt 2012); ("driver_id", PInt 70)]
  = _generate_key "dnf_rate" [("driver_id", PInt 70); ("season", PInt 2012)].
Proof.
  apply generate_key_order_independent.
  - apply (bool_decide_unpack _). vm_compute. exact I.
  - apply perm_swap.
Defined.

Lemma string_length_app (s1 s2 : string) :
  String.length (s1 +:+ s2) = (String.length s1 + String.length s2)%nat.
Proof. induction s1 as [|c s1 IH]; [done|]. simpl. by rewrite <-IH. Qed.

Lemma length_hex (n : nat) (x : Z) : String.length (Sha256.hex n x) = n.
Proof. induction n as [|n IH]; [done|]. simpl. by rewrite IH. Qed.

Lemma length_hexdigest (msg : list Z) :
  String.length (Sha256.hexdigest msg) = 64%nat.
Proof.
  unfold Sha256.hexdigest, Sha256.digest_words.
  destruct (foldl Sha256.compress Sha256.H0
              (Sha256.chunks (length (Sha256.pad msg)) 64 (Sha256.pad msg)))
    as [[[[[[[a b] c] d] e] f] g] h].
  cbn [foldr]. by rewrite !string_length_app, !length_hex.
Qed.

Lemma length_substring_0 (n : nat) (s : string) :
  (n ≤ String.length s)%nat → String.length (substring 0 n s) = n.
Proof.
  revert s. induction n as [|n IH]; intros s Hn.
  - by destruct s.
  - destruct s as [|c s]; simpl in *; [lia|]. rewrite IH; lia.
Qed.

Lemma hex_digits (n : nat) (x : Z) :
  Forall is_hex_digit (String.list_ascii_of_string (Sha256.hex n x)).
Proof.
  induction n as [|n IH]; [constructor|]. simpl. constructor; [|done].
  unfold Sha256.hex_digit, is_hex_digit.
  destruct (Z.land (Z.shiftr x (4 * Z.of_nat n)) 15) as [|p|p];
    [vm_compute; set_solver| |vm_compute; set_solver].
  do 4 (try destruct p as [p|p| ]); vm_compute; set_solver.
Qed.

Lemma list_ascii_app (s1 s2 : string) :
  String.list_ascii_of_string (s1 +:+ s2)
  = String.list_ascii_of_string s1 ++ String.list_ascii_of_string s2.
Proof. induction s1 as [|c s1 IH]; [done|]. simpl. by rewrite <-IH. Qed.

Lemma substring_0_chars (n : nat) (s : string) :
  String.list_ascii_of_string (substring 0 n s)
  = take n (String.list_ascii_of_string s).
Proof.
  revert s. induction n as [|n IH]; intros [|c s]; simpl; try done.
  by rewrite IH.
Qed.

(** X2.  A cache key is made of exactly 16 characters, each a lower-case
    hexadecimal digit: it names one file of the cache directory. *)
Theorem generate_key_shape (metric_name : string) (kw : kwargs) :
  String.length (_generate_key metric_name kw) = 16%nat ∧
  Forall is_hex_digit
    (String.list_ascii_of_string (_generate_key metric_name kw)).
Proof.
  unfold _generate_key. split.
  - apply length_substring_0. rewrite length_hexdigest. lia.
  - rewrite substring_0_chars. apply Forall_take.
    unfold Sha256.hexdigest, Sha256.digest_words.
    destruct (foldl Sha256.compress Sha256.H0 _)
      as [[[[[[[a b] c] d] e] f] g] h].
    cbn [foldr]. rewrite !list_ascii_app, !Forall_app.
    split_and!; try apply hex_digits. constructor.
Qed.

End cache_key.

(** ** Values through [MetricResult] and through json *)

Section values.

Import Config Py Base Json Cache Predicates.








(** X5.  Calling [MetricResult] with the items of [result.__dict__] as
    keyword arguments, which is how [get] rebuilds a result, is the
    constructor call on the fields of the result. *)
Theorem kwargs_of_dict (r : MetricResult) :
  MetricResult_of_kwargs (__dict__ r) = __post_init__ r.
Proof. by destruct r. Qed.

Lemma dump_load_list (l : list pyval) :
  dump_load (VList l) = VList (dump_load <$> l).
Proof. reflexivity. Qed.

Lemma dump_load_dict (d : list (pykey * pyval)) :
  dump_load (VDict d)
  = VDict (load_items ((λ kv, (key_text kv.1, dump_load kv.2)) <$> d)).
Proof.
  cbn [dump_load]. do 2 f_equal.
  induction d as [|[k x] d IH]; [done|]. rewrite fmap_cons. f_equal. exact IH.
Qed.

Lemma json_native_list (l : list pyval) :
  json_native (VList l) = forallb json_native l.
Proof.
  cbn [json_native]. induction l as [|x l IH]; [done|]. cbn [forallb].
  by rewrite <-IH.
Qed.

Lemma json_native_dict (d : list (pykey * pyval)) :
  NoDup d.*1 →
  Forall (λ kv, (∃ s, kv.1 = KStr s) ∧ json_native kv.2 = true) d →
  json_native (VDict d) = true.
Proof.
  intros Hnd Hall. cbn [json_native]. rewrite bool_decide_eq_true_2 by done.
  cbn [andb]. clear Hnd. induction Hall as [|[k x] d [[s Hk] Hx] _ IH]; [done|].
  simpl in *. subst k. by rewrite Hx, IH.
Qed.

Lemma dict_set_keys (d : list (pykey * pyval)) (k : pykey) (x : pyval) :
  (dict_set d k x).*1 = if decide (k ∈ d.*1) then d.*1 else d.*1 ++ [k].
Proof.
  induction d as [|[k' x'] d IH]; [done|]. cbn [dict_set].
  destruct (decide (k' = k)) as [->|Hne].
  - rewrite decide_True by (rewrite fmap_cons; left). done.
  - rewrite !fmap_cons. cbn [fst]. rewrite IH.
    destruct (decide (k ∈ d.*1)) as [Hin|Hout].
    + rewrite decide_True by by right. done.
    + rewrite decide_False; [done|]. rewrite elem_of_cons. naive_solver.
Qed.

Lemma dict_set_Forall (P : pykey * pyval → Prop) (d : list (pykey * pyval))
    (k : pykey) (x : pyval) :
  Forall P d → P (k, x) → Forall P (dict_set d k x).
Proof.
  intros Hd Hx. induction Hd as [|[k' x'] d Hk' Hd IH]; [by repeat constructor|].
  cbn [dict_set]. destruct (decide (k' = k)); by constructor.
Qed.

Lemma load_items_native (items : list (string * pyval)) :
  Forall (λ kv, json_native kv.2 = true) items →
  json_native (VDict (load_items items)) = true.
Proof.
  intros Hitems. unfold load_items.
  set (P := λ kv : pykey * pyval, (∃ s, kv.1 = KStr s) ∧ json_native kv.2 = true).
  assert (∀ acc, NoDup acc.*1 → Forall P acc →
    let d := foldl (λ d (kv : string * pyval), dict_set d (KStr kv.1) kv.2)
               acc items in
    NoDup d.*1 ∧ Forall P d) as Hfold.
  { induction Hitems as [|[s x] items Hx _ IH]; intros acc Hnd Hacc; [done|].
    cbn [foldl]. apply IH.
    - rewrite dict_set_keys. case_decide; [done|].
      apply NoDup_app. split_and!; [done| |apply NoDup_singleton].
      intros k Hk ->%list_elem_of_singleton. done.
    - apply dict_set_Forall; [done|]. split; [by eexists|done]. }
  destruct (Hfold [] (NoDup_nil_2) (Forall_nil_2 _)) as [Hnd Hall].
  by apply json_native_dict.
Qed.

Lemma dump_load_is_native (v : pyval) : json_native (dump_load v) = true.
Proof.
  induction v as [ |b|z|q|s|l IH|d IH|z|q|b] using pyval_rect'; try done.
  - rewrite dump_load_list, json_native_list. apply forallb_forall.
    intros y Hy. apply in_map_iff in Hy as (x & <- & Hx).
    rewrite Forall_forall in IH. apply IH. by apply list_elem_of_In.
  - rewrite dump_load_dict. apply load_items_native.
    apply Forall_fmap. eapply Forall_impl; [exact IH|]. by intros [k x].
Qed.

(** X6.  What [json.load] reads back from a cache file is made of native
    json values only, whatever was stored; storing it again and reading it
    back gives it unchanged. *)
Theorem dump_load_native_idempotent (v : pyval) :
  json_native (dump_load v) = true ∧ dump_load (dump_load v) = dump_load v.
Proof.
  split; [apply dump_load_is_native|].
  apply dump_load_native, dump_load_is_native.
Qed.

End values.

(** ** The views of the loader *)

Section loader_views.

Import Config Py Loader Base Metrics Views Predicates.

Global Instance race_le_total : Total race_le.
Proof. intros a b. unfold race_le. lia. Qed.

Global Instance key2_le_total : Total key2_le.
Proof. intros [a1 a2] [b1 b2]. unfold key2_le, pair_le. simpl. lia. Qed.

(** X7.  [get_races] returns the races of [races.csv] from [MIN_YEAR] on
    (of the season, when one is given), each as often as the file has it,
    ordered by year and then by round. *)
Theorem get_races_sorted (t : tables) (season : option Z) :
  Sorted race_le (get_races t season) ∧
  get_races t season
  ≡ₚ filter (λ r, MIN_YEAR ≤ race_year r ∧
                  (truthy season = true → Some (race_year r) = season))
       (races_csv t).
Proof.
  unfold get_races. split; [apply Sorted_merge_sort, _|].
  rewrite merge_sort_Permutation.
  destruct (truthy season) eqn:Hs.
  - rewrite list_filter_filter. apply reflexive_eq, filter_ext_elem.
    intros r _. naive_solver.
  - apply reflexive_eq, filter_ext_elem. intros r _. naive_solver.
Qed.

Lemma get_races_below_floor (t : tables) (y : Z) :
  y ≠ 0 → y < MIN_YEAR → get_races t (Some y) = [].
Proof.
  intros Hy Hlt. apply elem_of_nil_inv. intros r Hr.
  apply elem_of_get_races in Hr as (_ & Hmin & Hs).
  assert (truthy (Some y) = true) as Ht
    by (simpl; apply negb_true_iff, Z.eqb_neq; done).
  specialize (Hs Ht). injection Hs as Hs. lia.
Qed.

Lemma merge_left_nil_l {A B C} (on_l : A → Z) (on_r : B → Z)
    (pair : A → option B → C) (right : list B) :
  merge_left on_l on_r pair [] right = [].
Proof. done. Qed.

Lemma filter_elem_of_nil {A} (f : A → Z) (l : list A) :
  filter (λ x, f x ∈ []) l = [].
Proof. apply filter_none. intros x _ Hx. by apply elem_of_nil in Hx. Qed.



End loader_views.

Section loader_rows.

Import Config Py Loader Metrics Views Predicates.




(** X10.  [get_constructor_championship_positions] has at most one row for
    a year and a constructor, and its rows come by year, then by
    constructor id. *)
Theorem championship_positions_keys (t : tables) (season : option Z) :
  let keys :=
    (λ f, (fs_year f, fs_constructorId f))
      <$> get_constructor_championship_positions t season in
  NoDup keys ∧ Sorted key2_le keys.
Proof.
  unfold get_constructor_championship_positions.
  destruct (get_constructor_standings t season) as [|s0 standings];
    [split; constructor|].
  cbv zeta. rewrite <-list_fmap_compose.
  set (rows := merge_left _ _ _ _ _).
  set (key := λ r : standing_with_year, _).
  assert ((λ f, (fs_year f, fs_constructorId f)) ∘ last_of_group
          <$> groupby key2_le key rows
          = (groupby key2_le key rows).*1) as ->.
  { apply list_fmap_ext. by intros _ [[y c] g] _. }
  split; [apply NoDup_groupby_keys|].
  unfold groupby. rewrite <-list_fmap_compose.
  rewrite (list_fmap_ext _ id) by done. rewrite list_fmap_id.
  apply Sorted_merge_sort, _.
Qed.

Lemma omap_id_fmap {A B} (f : A → option B) (l : list A) :
  omap id (f <$> l) = omap f l.
Proof.
  induction l as [|x l IH]; [done|]. rewrite fmap_cons.
  change (omap id (f x :: (f <$> l)))
    with (match f x with Some y => y :: omap id (f <$> l)
          | None => omap id (f <$> l) end).
  rewrite IH. by destruct (f x) eqn:Hx; simpl; rewrite Hx.
Qed.

Lemma agg_min_elem (xs : list (option Z)) (m : Z) :
  agg_min xs = Some m → m ∈ omap id xs.
Proof.
  unfold agg_min. generalize (omap id xs) as ys. intros ys. revert m.
  induction ys as [|y ys IH]; intros m; [done|]. cbn [foldr].
  destruct (foldr _ None ys) as [m'|] eqn:Hm'.
  - intros [= <-]. destruct (Z.min_spec y m') as [[_ ->]|[_ ->]]; [left|].
    right. by apply IH.
  - intros [= <-]. left.
Qed.

(** X11.  A row of [get_constructor_race_wins] stands for a race and a
    constructor whose classified cars in that race are exactly two, one
    first and one second (cars of the constructor without a numeric
    position do not count). *)
Theorem race_wins_sound (t : tables) (season constructor_id : option Z)
    (w : race_win) :
  w ∈ get_constructor_race_wins t season constructor_id →
  let cars :=
    filter (λ row, race_constructor_key row
                   = Some (rw_raceId w, (rw_constructorId w,
                                         (rw_year w, rw_round w))))
      (get_constructor_results t season constructor_id) in
  omap cr_position cars = [1; 2] ∨ omap cr_position cars = [2; 1].
Proof.
  unfold get_constructor_race_wins, race_results.
  intros [(Hbest & Hworst & Hcount) Hw]%list_elem_of_filter.
  apply list_elem_of_fmap in Hw as ([k g] & -> & Hg).
  apply elem_of_groupby in Hg as [_ ->]. cbn [fst snd] in *.
  cbn [rw_raceId rw_constructorId rw_year rw_round rw_best_position
       rw_worst_position rw_drivers_count] in *.
  destruct k as [r [c [y rd]]]. cbn [fst snd] in *.
  set (cars := filter _ _) in *.
  unfold agg_count, agg_min, agg_max in *.
  rewrite omap_id_fmap in *.
  destruct (omap cr_position cars) as [|x [|z [|? ?]]]; simpl in *;
    try lia; try done.
  injection Hbest as Hbest. injection Hworst as Hworst.
  destruct (decide (x ≤ z)); [left|right];
    f_equal; [lia|f_equal; lia|lia|f_equal; lia].
Qed.

Lemma race_wins_sound_witness :
  let w := mk_race_win 2 7 2012 1 (Some 1) (Some 2) 2 43%Q in
  let cars :=
    filter (λ row, race_constructor_key row
                   = Some (rw_raceId w, (rw_constructorId w,
                                         (rw_year w, rw_round w))))
      (get_constructor_results Sample.dataset None None) in
  omap cr_position cars = [1; 2] ∨ omap cr_position cars = [2; 1].
Proof.
  apply (race_wins_sound Sample.dataset None None
           (mk_race_win 2 7 2012 1 (Some 1) (Some 2) 2 43%Q)).
  vm_compute. left.
Defined.

(** X12.  A row of [get_constructor_podium_lockouts] counts the podium
    cars of a constructor in a race: [podium_positions] and
    [drivers_count] are the same number, at least 2; the positions of
    these cars are among 1, 2 and 3, and 1 is one of them. *)
Theorem podium_lockouts_sound (t : tables) (season constructor_id : option Z)
    (c : podium_count) :
  c ∈ get_constructor_podium_lockouts t season constructor_id →
  let cars :=
    filter (λ row, race_constructor_key row
                   = Some (pc_raceId c, (pc_constructorId c,
                                         (pc_year c, pc_round c))))
      (filter (λ r, cr_position r ∈ [Some 1; Some 2; Some 3])
         (get_constructor_results t season constructor_id)) in
  pc_podium_positions c = len cars ∧ pc_drivers_count c = len cars ∧
  2 ≤ len cars ∧
  Some 1 ∈ cr_position <$> cars ∧
  Forall (λ p, p ∈ [Some 1; Some 2; Some 3]) (cr_position <$> cars).
Proof.
  unfold get_constructor_podium_lockouts.
  intros [[Hbest Hcount] Hc]%list_elem_of_filter.
  apply list_elem_of_fmap in Hc as ([k g] & -> & Hg).
  apply elem_of_groupby in Hg as [_ ->]. cbn [fst snd] in *.
  cbn [pc_raceId pc_constructorId pc_year pc_round pc_best_position
       pc_podium_positions pc_drivers_count] in *.
  destruct k as [r [cid [y rd]]]. cbn [fst snd] in *.
  set (cars := filter _ (filter _ _)) in *.
  assert (Forall (λ p, p ∈ [Some 1; Some 2; Some 3]) (cr_position <$> cars))
    as Hall.
  { apply Forall_fmap, Forall_forall. intros row Hrow.
    apply list_elem_of_filter in Hrow as [_ Hrow].
    by apply list_elem_of_filter in Hrow as [Hrow _]. }
  assert (agg_count (cr_position <$> cars) = len cars) as Hlen.
  { assert (∀ ps : list (option Z),
              Forall (λ p, p ∈ [Some 1; Some 2; Some 3]) ps →
              length (omap id ps) = length ps) as Haux.
    { intros ps Hps. induction Hps as [|p ps Hp _ IH]; [done|].
      destruct p as [p|]; [|set_solver].
      change (omap id (Some p :: ps)) with (p :: omap id ps).
      cbn [length]. by rewrite IH. }
    unfold agg_count, len. rewrite Haux by done. by rewrite length_fmap. }
  rewrite Hlen in *. split_and!; [done|done|done| |done].
  apply agg_min_elem in Hbest. rewrite omap_id_fmap in Hbest.
  apply list_elem_of_omap in Hbest as (row & Hrow & Hpos).
  apply list_elem_of_fmap. by exists row.
Qed.

End loader_rows.

Section loader_rows_examples.

Import Config Py Loader Metrics Views Predicates.

Lemma podium_lockouts_sound_witness :
  let c := mk_podium_count 2 7 2012 1 (Some 1) 2 2 in
  let cars :=
    filter (λ row, race_constructor_key row
                   = Some (pc_raceId c, (pc_constructorId c,
                                         (pc_year c, pc_round c))))
      (filter (λ r, cr_position r ∈ [Some 1; Some 2; Some 3])
         (get_constructor_results Sample.dataset None None)) in
  pc_podium_positions c = len cars ∧ pc_drivers_count c = len cars ∧
  2 ≤ len cars ∧
  Some 1 ∈ cr_position <$> cars ∧
  Forall (λ p, p ∈ [Some 1; Some 2; Some 3]) (cr_position <$> cars).
Proof.
  apply (podium_lockouts_sound Sample.dataset None None
           (mk_podium_count 2 7 2012 1 (Some 1) 2 2)).
  vm_compute. left.
Defined.

End loader_rows_examples.

(** ** The store of the cache *)

Section cache_store.

Import Config Py Base Json Cache Statements.

Lemma get_miss (c : MetricCache) (now : Z) (metric_name : string)
    (kw : kwargs) :
  files c !! _generate_key metric_name kw = None →
  get c now metric_name kw = (absent, c).
Proof. unfold get. intros ->. by destruct (enabled c). Qed.

(** X13.  [clear] forgets: after [clear(name)] a [get] of what was stored
    under that name misses, and after [clear()] every [get] misses, as it
    does after [clear] of the empty name, which clears everything too. *)
Theorem clear_forgets (c : MetricCache) (T0 now : Z) (metric_name : string)
    (result : pyobj) (kw : kwargs) :
  metric_name ≠ "" →
  (get (clear (set c T0 metric_name result kw) (Some metric_name)) now
     metric_name kw).1 = absent ∧
  ∀ name' kw',
    (get (clear c None) now name' kw').1 = absent ∧
    (get (clear c (Some "")) now name' kw').1 = absent.
Proof.
  intros Hname. split.
  - destruct metric_name as [|a s]; [done|].
    destruct (enabled c) eqn:Hen.
    + rewrite get_miss; [done|].
      cbn [clear files]. apply map_lookup_filter_None. right.
      intros f Hf. cbn [snd]. intros Hstored. apply Hstored. clear Hstored.
      rewrite files_set in Hf by done. by injection Hf as <-.
    + assert (set c T0 (String a s) result kw = c) as ->
        by (unfold set; by rewrite Hen).
      unfold get. cbn [clear enabled]. by rewrite Hen.
  - intros name' kw'. split; by rewrite get_miss.
Qed.

Lemma clear_forgets_witness :
  (get (clear (set Cache.__init__ 0 "dnf_rate" (OPlain (VInt 5)) [])
          (Some "dnf_rate")) 10 "dnf_rate" []).1 = absent ∧
  ∀ name' kw',
    (get (clear Cache.__init__ None) 10 name' kw').1 = absent ∧
    (get (clear Cache.__init__ (Some "")) 10 name' kw').1 = absent.
Proof. apply clear_forgets. discriminate. Defined.

(** X14.  [clear(name)] keeps what was stored for another metric: a [get]
    of it answers as it did before the [clear]. *)
Theorem clear_keeps_other_metrics (c : MetricCache) (T0 now : Z)
    (metric_name other : string) (result : pyobj) (kw : kwargs) :
  enabled c = true → metric_name ≠ "" → other ≠ metric_name →
  (get (clear (set c T0 other result kw) (Some metric_name)) now other kw).1
  = (get (set c T0 other result kw) now other kw).1.
Proof.
  intros Hen Hname Hother. destruct metric_name as [|a s]; [done|].
  pose proof (files_set c T0 other result kw Hen) as Hf.
  set (c1 := set c T0 other result kw) in *.
  assert (files (clear c1 (Some (String a s))) !! _generate_key other kw
          = files c1 !! _generate_key other kw) as Hkeep.
  { rewrite Hf. cbn [clear files]. apply map_lookup_filter_Some. split; [done|].
    cbn [snd stored_name file_content doc_metric_name]. congruence. }
  unfold get. rewrite Hkeep. cbn [clear enabled ttl].
  destruct (negb (enabled c1)); [done|].
  destruct (files c1 !! _generate_key other kw) as [f|]; [|done].
  destruct (decide (now - st_mtime f > timedelta_seconds (ttl c1))); [done|].
  by destruct (file_content f).
Qed.

Lemma clear_keeps_other_metrics_witness :
  (get (clear (set Cache.__init__ 0 "dnf_rate" (OPlain (VInt 5)) [])
          (Some "podium_rate")) 10 "dnf_rate" []).1
  = (get (set Cache.__init__ 0 "dnf_rate" (OPlain (VInt 5)) []) 10
       "dnf_rate" []).1.
Proof. apply clear_keeps_other_metrics; [reflexivity|discriminate..]. Defined.

(** X15.  [set] touches one file only: a [get] under another key answers
    as it did before the [set]. *)
Theorem set_keeps_other_keys (c : MetricCache) (T0 now : Z)
    (metric_name other : string) (result : pyobj) (kw kw' : kwargs) :
  _generate_key other kw' ≠ _generate_key metric_name kw →
  (get (set c T0 metric_name result kw) now other kw').1
  = (get c now other kw').1.
Proof.
  intros Hkey. destruct (enabled c) eqn:Hen.
  - unfold set. rewrite Hen. cbn [negb]. unfold get.
    cbn [enabled files ttl]. rewrite Hen. cbn [negb].
    rewrite lookup_insert_ne by done.
    destruct (files c !! _generate_key other kw') as [f|]; [|done].
    destruct (decide (now - st_mtime f > timedelta_seconds (ttl c))); [done|].
    by destruct (file_content f).
  - unfold set. by rewrite Hen.
Qed.

Lemma set_keeps_other_keys_witness :
  (get (set Cache.__init__ 0 "dnf_rate" (OPlain (VInt 5)) []) 10
     "dnf_rate" [("season", PInt 2012)]).1
  = (get Cache.__init__ 10 "dnf_rate" [("season", PInt 2012)]).1.
Proof. apply set_keeps_other_keys. vm_compute. discriminate. Defined.

End cache_store.

(** ** The driver race metrics *)

Section race_metrics.

Import Config Py Loader Base Json Cache Metrics Statements Predicates.

Lemma select_results_below_floor (t : tables)
    (driver_id constructor_id : option Z) (y : Z) (race_ids : option (list Z)) :
  y ≠ 0 → y < MIN_YEAR → truthy_list race_ids = false →
  select_results t driver_id constructor_id (Some y) race_ids = [].
Proof.
  intros Hy Hlt Hids. unfold select_results.
  rewrite get_races_below_floor, race_ids_or_absent by done.
  unfold get_results. rewrite fmap_nil, filter_elem_of_nil.
  by destruct (truthy driver_id), (truthy constructor_id).
Qed.

(** X16.  Asked for a season before [MIN_YEAR], without race ids of their
    own, the driver race metrics do not fail: they return the result that
    says that no race results were found, with no value. *)
Theorem below_floor_no_race_results (t : tables)
    (driver_id constructor_id : option Z) (y : Z) (race_ids : option (list Z)) :
  y ≠ 0 → y < MIN_YEAR → truthy_list race_ids = false →
  AverageFinishPosition.compute t driver_id constructor_id (Some y) race_ids
  = Return (no_race_results AverageFinishPosition.name driver_id
              constructor_id (Some y)) ∧
  DNFRate.compute t driver_id constructor_id (Some y) race_ids
  = Return (no_race_results DNFRate.name driver_id constructor_id (Some y)).
Proof.
  intros Hy Hlt Hids.
  unfold AverageFinishPosition.compute, DNFRate.compute.
  by rewrite select_results_below_floor.
Qed.

Lemma below_floor_no_race_results_witness :
  AverageFinishPosition.compute Sample.dataset (Some 70) None (Some 2009) None
  = Return (no_race_results AverageFinishPosition.name (Some 70) None
              (Some 2009)) ∧
  DNFRate.compute Sample.dataset (Some 70) None (Some 2009) None
  = Return (no_race_results DNFRate.name (Some 70) None (Some 2009)).
Proof. apply below_floor_no_race_results; [lia|reflexivity|reflexivity]. Defined.

Lemma position_orders_finished (results : list result) :
  length (AverageFinishPosition.position_orders
            (AverageFinishPosition.finished_results results))
  = length (AverageFinishPosition.finished_results results).
Proof.
  unfold AverageFinishPosition.position_orders,
    AverageFinishPosition.finished_results.
  induction results as [|r results IH]; [done|].
  rewrite filter_cons. case_decide as Hr; [|done].
  unfold AverageFinishPosition.is_finished in Hr.
  destruct (res_positionOrder r) as [p|] eqn:Hp; [|done].
  change (omap res_positionOrder (r :: ?l))
    with (match res_positionOrder r with
          | Some y => y :: omap res_positionOrder l
          | None => omap res_positionOrder l
          end).
  rewrite Hp. cbn [length]. by rewrite IH.
Qed.

(** X17.  When rows are selected, [AverageFinishPosition] returns a
    result whose counts add up: the finished races and the DNF count make
    the total, and the value is [None] exactly when no selected row is
    classified. *)
Theorem average_finish_position_counts (t : tables)
    (driver_id constructor_id season : option Z) (race_ids : option (list Z)) :
  select_results t driver_id constructor_id season race_ids ≠ [] →
  ∃ m total finished,
    AverageFinishPosition.compute t driver_id constructor_id season race_ids
      = Return m ∧
    metadata_get m "total_races" = Some (VInt total) ∧
    metadata_get m "finished_races" = Some (VInt finished) ∧
    metadata_get m "dnf_count" = Some (VInt (total - finished)) ∧
    0 ≤ finished ≤ total ∧
    total = len (select_results t driver_id constructor_id season race_ids) ∧
    (value m = VNone ↔ finished = 0).
Proof.
  intros Hsel. unfold AverageFinishPosition.compute.
  destruct (select_results t driver_id constructor_id season race_ids)
    as [|r0 rs] eqn:Hrows; [done|].
  set (results := r0 :: rs).
  pose proof (position_orders_finished results) as Hlen.
  pose proof (length_filter (λ r, AverageFinishPosition.is_finished r = true)
                results) as Hle.
  fold (AverageFinishPosition.finished_results results) in Hle.
  eexists _, (len results),
    (len (AverageFinishPosition.finished_results results)).
  split; [reflexivity|].
  split_and!; try reflexivity; unfold len; try lia.
  cbn [value]. unfold mean.
  destruct (AverageFinishPosition.position_orders
              (AverageFinishPosition.finished_results results)) as [|p ps];
    simpl in Hlen.
  - split; [lia|done].
  - split; [done|lia].
Qed.

Lemma average_finish_position_counts_witness :
  ∃ m total finished,
    AverageFinishPosition.compute Sample.dataset None None None None
      = Return m ∧
    metadata_get m "total_races" = Some (VInt total) ∧
    metadata_get m "finished_races" = Some (VInt finished) ∧
    metadata_get m "dnf_count" = Some (VInt (total - finished)) ∧
    0 ≤ finished ≤ total ∧
    total = len (select_results Sample.dataset None None None None) ∧
    (value m = VNone ↔ finished = 0).
Proof.
  apply average_finish_position_counts. vm_compute. discriminate.
Defined.

End race_metrics.

Section memoisation.

Import Config Py Loader Base Json Cache Metrics Statements Predicates.

Lemma of_opt_int_native (x : option Z) : json_native (of_opt_int x) = true.
Proof. by destruct x. Qed.

Lemma lookup_driver_name_native (t : tables) (driver_id : option Z) :
  json_native (lookup_driver_name t driver_id) = true.
Proof.
  unfold lookup_driver_name. destruct (truthy driver_id); [|done].
  by destruct (filter _ _).
Qed.

(** What [AverageFinishPosition] computes is made of native values. *)
Lemma average_finish_position_native (t : tables)
    (driver_id constructor_id season : option Z) (race_ids : option (list Z)) :
  ∃ r,
    AverageFinishPosition.compute t driver_id constructor_id season race_ids
      = Return r ∧
    native_result r = true.
Proof.
  unfold AverageFinishPosition.compute.
  destruct (select_results t driver_id constructor_id season race_ids)
    as [|r0 rs].
  - eexists. split; [reflexivity|].
    unfold native_result. cbn [metric_name value Base.driver_id driver_name
      Base.constructor_id constructor_name Base.season metadata].
    rewrite !of_opt_int_native. reflexivity.
  - eexists. split; [reflexivity|].
    unfold native_result. cbn [metric_name value Base.driver_id driver_name
      Base.constructor_id constructor_name Base.season metadata].
    rewrite !of_opt_int_native, lookup_driver_name_native.
    destruct (mean _); cbn [_serialize_value json_native andb];
      (apply andb_true_intro; split; [|done]);
      cbn [_serialize_dict fmap list_fmap prod_map fst snd id json_native
           _serialize_value];
      rewrite ?of_opt_int_native;
      destruct (agg_min _), (agg_max _); reflexivity.
Qed.

(** X18.  Within the TTL, [AverageFinishPosition.calculate] answers from
    the cache: once a call has computed and stored a result, a later call
    with the same arguments returns that result and leaves the cache as it
    is, whatever the data files hold by then. *)
Theorem calculate_served_from_cache (c : MetricCache) (now now' : Z)
    (t t' : tables) (driver_id constructor_id season : option Z)
    (race_ids : option (list Z)) :
  enabled c = true →
  (get c now AverageFinishPosition.name
     (cache_key driver_id constructor_id season race_ids)).1 = absent →
  now' - now ≤ timedelta_seconds (ttl c) →
  ∃ r c1,
    AverageFinishPosition.calculate c now t driver_id constructor_id season
      race_ids = (Return (OMetric r), c1) ∧
    AverageFinishPosition.calculate c1 now' t' driver_id constructor_id season
      race_ids = (Return (OMetric r), c1).
Proof.
  intros Hen Hmiss Hfresh.
  destruct (average_finish_position_native t driver_id constructor_id season
              race_ids) as (r & Hr & Hnative).
  unfold AverageFinishPosition.calculate, with_cache. rewrite Hr.
  set (kw := cache_key driver_id constructor_id season race_ids) in *.
  set (name := AverageFinishPosition.name) in *.
  destruct (get c now name kw) as [cached c0] eqn:Hget.
  cbn [fst] in Hmiss. subst cached. unfold absent.
  assert (enabled c0 = true ∧ ttl c0 = ttl c) as [Hen0 Httl0].
  { unfold get in Hget. rewrite Hen in Hget. cbn [negb] in Hget.
    destruct (files c !! _generate_key name kw) as [f|];
      [|by injection Hget as <-].
    destruct (decide (now - st_mtime f > timedelta_seconds (ttl c)));
      [by injection Hget as <-|].
    destruct (file_content f);
      [injection Hget as <-|injection Hget as _ <-]; done. }
  exists r, (set c0 now name (OMetric r) kw). split; [done|].
  pose proof (files_set c0 now name (OMetric r) kw Hen0) as Hfile.
  set (c1 := set c0 now name (OMetric r) kw) in *.
  assert (enabled c1 = true ∧ ttl c1 = ttl c) as [Hen1 Httl1]
    by (unfold c1, set; rewrite Hen0; done).
  assert (get c1 now' name kw = (OMetric r, c1)) as ->; [|done].
  unfold get. rewrite Hen1, Hfile. cbn [negb st_mtime file_content].
  rewrite Httl1, decide_False by lia.
  by rewrite (load_result_set name (OMetric r) now kw Hnative).
Qed.

Lemma calculate_served_from_cache_witness :
  ∃ r c1,
    AverageFinishPosition.calculate Cache.__init__ 0 Sample.dataset (Some 70)
      None None None = (Return (OMetric r), c1) ∧
    AverageFinishPosition.calculate c1 1000 Sample.display_mismatch (Some 70)
      None None None = (Return (OMetric r), c1).
Proof.
  apply (calculate_served_from_cache Cache.__init__ 0 1000).
  - reflexivity.
  - apply (f_equal fst (get_miss _ _ _ _ (lookup_empty _))).
  - vm_compute. discriminate.
Defined.

End memoisation.

(** ** The routes *)

Section routes.

Import Config Py Loader Base Json Cache Metrics Routes.

Lemma bulk_unknown_fold (reg : registry) (now : Z) (t : tables)
    (request : MetricRequest) (metric_names : list string)
    (results : list MetricResponse) (errors : list string) (c : MetricCache) :
  (∀ n, n ∈ metric_names → lookup reg n = None) →
  foldl (bulk_step reg now t request) (results, errors, c) metric_names
  = (results, errors ++ (not_found <$> metric_names), c).
Proof.
  revert errors. induction metric_names as [|n names IH]; intros errors Hreg.
  - by rewrite app_nil_r.
  - cbn [foldl]. unfold bulk_step at 2. rewrite (Hreg n) by left.
    rewrite IH by (intros; apply Hreg; by right).
    by rewrite fmap_cons, <-app_assoc.
Qed.

(** X19.  When none of the requested metrics is registered, the bulk
    driver route answers 400 with one [not found] message per requested
    name, in the order of the request, and does not touch the cache. *)
Theorem bulk_all_unknown (reg : registry) (c : MetricCache) (now : Z)
    (t : tables) (metric_names : list string) (request : MetricRequest) :
  metric_names ≠ [] →
  (∀ n, n ∈ metric_names → lookup reg n = None) →
  calculate_multiple_driver_metrics reg c now t metric_names request
  = (HTTPException 400
       (Errors (not_found <$> metric_names) "No metrics could be calculated"),
     c).
Proof.
  intros Hne Hreg. unfold calculate_multiple_driver_metrics, bulk_loop.
  rewrite bulk_unknown_fold by done. by destruct metric_names.
Qed.

Lemma bulk_all_unknown_witness :
  calculate_multiple_driver_metrics DRIVER_METRICS Cache.__init__ 0
    Sample.dataset ["pace"; "luck"] (mk_MetricRequest None None None None)
  = (HTTPException 400
       (Errors (not_found <$> ["pace"; "luck"])
          "No metrics could be calculated"),
     Cache.__init__).
Proof.
  apply bulk_all_unknown; [discriminate|].
  intros n Hn. repeat (apply elem_of_cons in Hn as [->|Hn]); try reflexivity.
  by apply elem_of_nil in Hn.
Defined.

(** X20.  The single-metric route and the bulk route agree on success:
    the bulk route called with one name returns one response exactly when
    the single-metric route returns that response, with the same cache
    afterwards.  (Where one fails so does the other, with other status
    codes: 404 or 500 against 400.) *)
Theorem single_and_bulk_agree (reg : registry) (c c' : MetricCache) (now : Z)
    (t : tables) (metric_name : string) (request : MetricRequest)
    (r : MetricResponse) :
  calculate_driver_metric reg c now t metric_name request = (Returned r, c') ↔
  calculate_multiple_driver_metrics reg c now t [metric_name] request
  = (Returned [r], c').
Proof.
  unfold calculate_driver_metric, calculate_multiple_driver_metrics,
    bulk_loop, calculate_one. cbn [foldl]. unfold bulk_step.
  destruct (lookup reg metric_name) as [metric_calculator|];
    [|split; intros [=]].
  destruct (metric_calculator c now t request) as [[result|e] c1];
    [|split; intros [=]].
  destruct (_convert_metric_result_to_response t result) as [r1|e];
    [|split; intros [=]].
  cbn [app bulk_answer]. split; intros [= -> ->]; done.
Qed.

End routes.

(** ** The table cache of the loader *)

Section data_cache.

Import Metrics DataCache.

(** X21.  [load_csv] reads a file once: after a call that returned a
    frame and cached it, every later cached call for that file returns the
    same frame and leaves the loader as it is, whatever the dataset
    directory holds by then, even when the file is gone. *)
Theorem load_csv_memoised {frame : Type} (fs fs' : dataset_dir frame)
    (self self' : F1DataLoader frame) (filename : string) (df : frame) :
  load_csv fs self filename true = (Return df, self') →
  load_csv fs' self' filename true = (Return df, self').
Proof.
  unfold load_csv. intros Hload.
  destruct (_data_cache self !! filename) as [df0|] eqn:Hcached.
  - injection Hload as -> ->. by rewrite Hcached.
  - destruct (fs !! filename) as [[df1|e]|]; try done.
    injection Hload as -> <-. cbn [_data_cache].
    by rewrite lookup_insert_eq.
Qed.

Lemma load_csv_memoised_witness :
  load_csv (frame := list Z) ∅
    (mk_F1DataLoader (<["races.csv" := [1; 2]]> ∅) ∅) "races.csv" true
  = (Return [1; 2], mk_F1DataLoader (<["races.csv" := [1; 2]]> ∅) ∅).
Proof.
  apply (load_csv_memoised (<["races.csv" := Parsed [1; 2]]> ∅) ∅
           F1DataLoader__init__).
  vm_compute. reflexivity.
Defined.

End data_cache.

(** ** The teammate pairs *)

Section teammates.

Import Config Py Loader Teammates.

Lemma elem_of_unique (l : list Z) (x : Z) : x ∈ unique l ↔ x ∈ l.
Proof.
  induction l as [|y l IH]; [done|]. cbn [unique].
  rewrite !elem_of_cons, list_elem_of_filter, IH.
  destruct (decide (x = y)); naive_solver.
Qed.

Lemma constructor_rows_of_race (t : tables) (season : option Z) (race : race)
    (constructor_id : Z) :
  race ∈ get_races t season →
  filter (λ r, res_constructorId r = constructor_id)
    (filter (λ r, res_raceId r = race_raceId race)
       (get_results t (Some (race_raceId <$> get_races t season))))
  = filter (λ r, res_raceId r = race_raceId race ∧
                 res_constructorId r = constructor_id) (results_csv t).
Proof.
  intros Hrace. unfold get_results. rewrite !list_filter_filter.
  apply filter_ext_elem. intros r _. split; [naive_solver|].
  intros [Hr Hc]. split_and!; [done..|].
  rewrite Hr. apply list_elem_of_fmap. by exists race.
Qed.

(** X22.  [get_teammate_pairs] reports a pair for a race and a constructor
    exactly when the race is one of [get_races] and the constructor has
    exactly two results in it; the drivers of the pair are those of these
    two results, in the order of [results.csv]. *)
Theorem elem_of_get_teammate_pairs (t : tables) (season : option Z)
    (p : teammate_pair) :
  p ∈ get_teammate_pairs t season ↔
  ∃ race,
    race ∈ get_races t season ∧
    tp_raceId p = race_raceId race ∧ tp_year p = race_year race ∧
    res_driverId
      <$> filter (λ r, res_raceId r = tp_raceId p ∧
                       res_constructorId r = tp_constructorId p)
            (results_csv t)
    = [tp_driver1_id p; tp_driver2_id p].
Proof.
  unfold get_teammate_pairs. rewrite list_elem_of_bind. split.
  - intros (race & Hp & Hrace). exists race. split; [done|].
    apply list_elem_of_bind in Hp as (cid & Hp & _).
    rewrite constructor_rows_of_race in Hp by done.
    destruct (res_driverId <$> filter _ (results_csv t))
      as [|d1 [|d2 [|d3 ds]]] eqn:Hrows;
      try (by apply elem_of_nil in Hp).
    apply list_elem_of_singleton in Hp as ->. by cbn.
  - intros (race & Hrace & Hid & Hyear & Hrows). exists race.
    split; [|done]. apply list_elem_of_bind. exists (tp_constructorId p).
    split.
    + rewrite constructor_rows_of_race by done. rewrite <-Hid, Hrows.
      destruct p. cbn in *. subst. left.
    + apply elem_of_unique, list_elem_of_fmap.
      destruct (filter (λ r, res_raceId r = tp_raceId p ∧
                             res_constructorId r = tp_constructorId p)
                  (results_csv t)) as [|r rows] eqn:Hfilter; [done|].
      assert (r ∈ filter (λ r, res_raceId r = tp_raceId p ∧
                               res_constructorId r = tp_constructorId p)
                    (results_csv t)) as Hr by (rewrite Hfilter; left).
      apply list_elem_of_filter in Hr as [[Hr1 Hr2] Hr].
      exists r. split; [done|]. apply list_elem_of_filter. split; [congruence|].
      apply elem_of_get_results. split; [done|].
      apply list_elem_of_fmap. exists race. split; [congruence|done].
Qed.

End teammates.

(** ** The podium rate *)

Section podium_rate.

Import Config Py Loader Base Json Cache Metrics.

Lemma podiums_split (results : list result) :
  (∀ r p, r ∈ results → res_positionOrder r = Some p → 1 ≤ p) →
  len (PodiumRate.podiums results)
  = len (PodiumRate.placed 1 results) + len (PodiumRate.placed 2 results)
    + len (PodiumRate.placed 3 results).
Proof.
  unfold PodiumRate.podiums, PodiumRate.placed, len.
  induction results as [|r results IH]; intros Hpos; [done|].
  specialize (IH (λ r' p Hr', Hpos r' p (list_elem_of_further _ _ _ Hr'))).
  pose proof (λ p, Hpos r p (list_elem_of_here _ _)) as Hr.
  rewrite !filter_cons.
  destruct r as [id race drv con pos ptext [p|] pts status];
    cbn [res_positionOrder] in Hr; clear Hpos.
  - specialize (Hr p eq_refl).
    repeat case_decide; cbn [length];
      unfold PodiumRate.on_podium in *; cbn [res_positionOrder] in *;
      repeat match goal with
             | H : bool_decide _ = true |- _ => apply bool_decide_eq_true in H
             | H : ¬ (bool_decide _ = true) |- _ =>
                 rewrite bool_decide_eq_true in H
             | H : Some _ = Some _ |- _ => injection H as H
             | H : Some ?a ≠ Some ?b |- _ =>
                 assert (a ≠ b) by congruence; clear H
             end; lia.
  - repeat case_decide; cbn [res_positionOrder] in *; try done.
Qed.

(** X23.  When every selected result that has a finishing order has one
    of at least 1, the counts of [PodiumRate] add up: the podium count is
    the sum of the wins, the second places and the third places, and it
    does not exceed the number of races. *)
Theorem podium_rate_counts (t : tables)
    (driver_id constructor_id season : option Z) (race_ids : option (list Z)) :
  select_results t driver_id constructor_id season race_ids ≠ [] →
  (∀ r p, r ∈ select_results t driver_id constructor_id season race_ids →
          res_positionOrder r = Some p → 1 ≤ p) →
  ∃ m wins seconds thirds total,
    PodiumRate.compute t driver_id constructor_id season race_ids = Return m ∧
    metadata_get m "wins" = Some (VInt wins) ∧
    metadata_get m "second_places" = Some (VInt seconds) ∧
    metadata_get m "third_places" = Some (VInt thirds) ∧
    metadata_get m "podium_count" = Some (VInt (wins + seconds + thirds)) ∧
    metadata_get m "total_races" = Some (VInt total) ∧
    0 ≤ wins ∧ 0 ≤ seconds ∧ 0 ≤ thirds ∧ wins + seconds + thirds ≤ total.
Proof.
  intros Hsel Hpos. unfold PodiumRate.compute.
  destruct (select_results t driver_id constructor_id season race_ids)
    as [|r0 rs] eqn:Hrows; [done|].
  set (results := r0 :: rs) in *.
  pose proof (podiums_split results Hpos) as Hsplit.
  pose proof (length_filter (λ r, PodiumRate.on_podium r = true) results)
    as Hle.
  fold (PodiumRate.podiums results) in Hle.
  eexists _, (len (PodiumRate.placed 1 results)),
    (len (PodiumRate.placed 2 results)), (len (PodiumRate.placed 3 results)),
    (len results).
  split; [reflexivity|].
  split_and!; try reflexivity; try (unfold len; lia).
  - rewrite <-Hsplit. reflexivity.
  - rewrite <-Hsplit. unfold len. lia.
Qed.

Lemma podium_rate_counts_witness :
  ∃ m wins seconds thirds total,
    PodiumRate.compute Sample.dataset (Some 70) None None None = Return m ∧
    metadata_get m "wins" = Some (VInt wins) ∧
    metadata_get m "second_places" = Some (VInt seconds) ∧
    metadata_get m "third_places" = Some (VInt thirds) ∧
    metadata_get m "podium_count" = Some (VInt (wins + seconds + thirds)) ∧
    metadata_get m "total_races" = Some (VInt total) ∧
    0 ≤ wins ∧ 0 ≤ seconds ∧ 0 ≤ thirds ∧ wins + seconds + thirds ≤ total.
Proof.
  apply podium_rate_counts.
  - vm_compute. discriminate.
  - intros r p Hr Hp.
    assert (select_results Sample.dataset (Some 70) None None None
            = [Sample.res 3 2 70 7 "2" "2" 2 18; Sample.res 6 3 70 7 "1" "1" 1 25])
      as Hrows by (vm_compute; reflexivity).
    rewrite Hrows in Hr.
    repeat (apply elem_of_cons in Hr as [->|Hr]);
      [injection Hp as <-; lia..|by apply elem_of_nil in Hr].
Defined.

End podium_rate.

(** ** The text the cache key is the hash of *)

Section hashed_text.

Import Config Py Base Json Cache Predicates.

Local Abbreviation chars := String.list_ascii_of_string.

Lemma chars_inj (s1 s2 : string) : chars s1 = chars s2 → s1 = s2.
Proof.
  intros Heq. rewrite <-(string_of_list_ascii_of_string s1),
    <-(string_of_list_ascii_of_string s2). by rewrite Heq.
Qed.

Lemma unescape_escape_char (c : ascii) (l : list ascii) :
  unescape_char (chars (escape_char c) ++ l) = Some (c, l).
Proof. destruct c as [[] [] [] [] [] [] [] []]; vm_compute; reflexivity. Qed.

Lemma chars_escape_cons (c : ascii) (s : string) :
  chars (escape (String c s)) = chars (escape_char c) ++ chars (escape s).
Proof. cbn [escape]. apply list_ascii_app. Qed.

(** A json string can be read back from the head of a text. *)
Lemma escape_inj (k1 k2 : string) (r1 r2 : list ascii) :
  chars (escape k1) ++ dquote :: r1 = chars (escape k2) ++ dquote :: r2 →
  k1 = k2 ∧ r1 = r2.
Proof.
  revert k2. induction k1 as [|c1 k1 IH]; intros [|c2 k2] Heq.
  - by injection Heq as ->.
  - rewrite chars_escape_cons, <-app_assoc in Heq.
    apply (f_equal unescape_char) in Heq.
    by rewrite unescape_escape_char in Heq.
  - rewrite chars_escape_cons, <-app_assoc in Heq.
    apply (f_equal unescape_char) in Heq.
    by rewrite unescape_escape_char in Heq.
  - rewrite !chars_escape_cons, <-!app_assoc in Heq.
    apply (f_equal unescape_char) in Heq.
    rewrite !unescape_escape_char in Heq. injection Heq as -> Heq.
    by destruct (IH _ Heq) as [-> ->].
Qed.

Lemma numeric_split (ds1 ds2 r1 r2 : list ascii) :
  Forall (λ c, numeric_char c = true) ds1 →
  Forall (λ c, numeric_char c = true) ds2 →
  terminated r1 → terminated r2 →
  ds1 ++ r1 = ds2 ++ r2 → ds1 = ds2 ∧ r1 = r2.
Proof.
  intros Hds1. revert ds2.
  induction Hds1 as [|d1 ds1 Hd1 _ IH]; intros ds2 Hds2 Hr1 Hr2 Heq;
    destruct Hds2 as [|d2 ds2 Hd2 Hds2]; simpl in Heq.
  - done.
  - subst r1. simpl in Hr1. congruence.
  - subst r2. simpl in Hr2. congruence.
  - injection Heq as -> Heq. by destruct (IH _ Hds2 Hr1 Hr2 Heq) as [-> ->].
Qed.

Lemma pretty_N_char_numeric (x : N) : numeric_char (pretty_N_char x) = true.
Proof. unfold pretty_N_char. by repeat case_match. Qed.

Lemma pretty_N_go_numeric (x : N) (s : string) :
  ∃ pre, chars (pretty_N_go x s) = pre ++ chars s ∧
         Forall (λ c, numeric_char c = true) pre ∧
         ((0 < x)%N → pre ≠ []).
Proof.
  revert s. induction (N.lt_wf_0 x) as [x _ IH]; intros s.
  destruct (decide (x = 0%N)) as [->|Hx].
  - exists []. rewrite pretty_N_go_0. split_and!; [done|constructor|lia].
  - rewrite pretty_N_go_step by lia.
    destruct (IH (x `div` 10)%N
                ltac:(apply N.div_lt; lia)
                (String (pretty_N_char (x `mod` 10)) s))
      as (pre & Hpre & Hnum & _).
    exists (pre ++ [pretty_N_char (x `mod` 10)]).
    split_and!.
    + rewrite Hpre. cbn [String.list_ascii_of_string]. by rewrite <-app_assoc.
    + apply Forall_app. split; [done|].
      constructor; [apply pretty_N_char_numeric|constructor].
    + intros _. by destruct pre.
Qed.

(** An integer is written as a non-empty text of digits and sign. *)
Lemma pretty_Z_numeric (z : Z) :
  ∃ c cs, chars (str_of_int z) = c :: cs ∧
          Forall (λ c, numeric_char c = true) (c :: cs).
Proof.
  assert (∀ p, ∃ c cs, chars (pretty (N.pos p)) = c :: cs ∧
                       Forall (λ c, numeric_char c = true) (c :: cs)) as Hpos.
  { intros p. unfold pretty, pretty_N. rewrite decide_False by done.
    destruct (pretty_N_go_numeric (N.pos p) "") as (pre & Hpre & Hnum & Hne).
    rewrite app_nil_r in Hpre.
    destruct pre as [|c cs]; [by destruct Hne|]. by exists c, cs. }
  destruct z as [|p|p].
  - exists "0"%char, []. split; [done|]. by repeat constructor.
  - apply Hpos.
  - destruct (Hpos p) as (c & cs & Heq & Hnum).
    exists "-"%char, (c :: cs).
    change (str_of_int (Z.neg p)) with ("-" +:+ pretty (N.pos p)).
    rewrite list_ascii_app, Heq. split; [done|]. by constructor.
Qed.

Lemma str_of_int_split (z1 z2 : Z) (r1 r2 : list ascii) :
  terminated r1 → terminated r2 →
  chars (str_of_int z1) ++ r1 = chars (str_of_int z2) ++ r2 →
  z1 = z2 ∧ r1 = r2.
Proof.
  intros Hr1 Hr2 Heq.
  destruct (pretty_Z_numeric z1) as (c1 & cs1 & Hz1 & Hnum1).
  destruct (pretty_Z_numeric z2) as (c2 & cs2 & Hz2 & Hnum2).
  rewrite Hz1, Hz2 in Heq.
  destruct (numeric_split _ _ _ _ Hnum1 Hnum2 Hr1 Hr2 Heq) as [Hcs ->].
  split; [|done]. rewrite <-Hz1, <-Hz2 in Hcs.
  apply chars_inj in Hcs. unfold str_of_int in Hcs. by apply (inj pretty).
Qed.

Lemma chars_join_close (x : string) (items : list string) (close : string) :
  chars (join_close (x :: items) close)
  = chars x ++ match items with
               | [] => chars close
               | _ => ","%char :: " "%char :: chars (join_close items close)
               end.
Proof.
  destruct items as [|y items]; cbn [join_close]; by rewrite !list_ascii_app.
Qed.

(** A list of integers can be read back from the head of a text. *)
Lemma int_list_split (l1 l2 : list Z) (r1 r2 : list ascii) :
  chars (join_close (str_of_int <$> l1) "]") ++ r1
    = chars (join_close (str_of_int <$> l2) "]") ++ r2 →
  l1 = l2 ∧ r1 = r2.
Proof.
  revert l2. induction l1 as [|z1 l1 IH]; intros [|z2 l2] Heq.
  - simpl in Heq. by injection Heq as ->.
  - rewrite fmap_cons, chars_join_close in Heq.
    destruct (pretty_Z_numeric z2) as (c & cs & Hz & Hnum).
    rewrite Hz in Heq. simpl in Heq. injection Heq as <- _.
    by apply Forall_cons in Hnum as [? _].
  - rewrite fmap_cons, chars_join_close in Heq.
    destruct (pretty_Z_numeric z1) as (c & cs & Hz & Hnum).
    rewrite Hz in Heq. simpl in Heq. injection Heq as -> _.
    by apply Forall_cons in Hnum as [? _].
  - rewrite !fmap_cons, !chars_join_close, <-!app_assoc in Heq.
    apply str_of_int_split in Heq as [-> Heq].
    + destruct l1 as [|y1 l1], l2 as [|y2 l2];
        cbn [fmap list_fmap] in Heq; try done.
      * by apply app_inv_head in Heq as ->.
      * rewrite <-!app_comm_cons in Heq. injection Heq as Heq.
        by destruct (IH (y2 :: l2) Heq) as [-> ->].
    + by destruct l1.
    + by destruct l2.
Qed.

(** A parameter value can be read back from the head of a text that
    goes on after it. *)
Lemma dumps_param_split (v1 v2 : param) (r1 r2 : list ascii) :
  terminated r1 → terminated r2 →
  chars (dumps_param v1) ++ r1 = chars (dumps_param v2) ++ r2 →
  v1 = v2 ∧ r1 = r2.
Proof.
  intros Hr1 Hr2 Heq.
  assert (∀ z r r', chars "null" ++ r ≠ chars (str_of_int z) ++ r') as Hnull.
  { intros z r r' H. destruct (pretty_Z_numeric z) as (c & cs & Hz & Hnum).
    rewrite Hz in H. simpl in H. injection H as <- _.
    by apply Forall_cons in Hnum as [? _]. }
  assert (∀ z l r r', chars (str_of_int z) ++ r
                      ≠ chars ("[" +:+ join_close (str_of_int <$> l) "]") ++ r')
    as Hlist.
  { intros z l r r' H. destruct (pretty_Z_numeric z) as (c & cs & Hz & Hnum).
    rewrite Hz in H. simpl in H. injection H as -> _.
    by apply Forall_cons in Hnum as [? _]. }
  destruct v1 as [|z1|l1], v2 as [|z2|l2]; cbn [dumps_param] in Heq.
  - by apply app_inv_head in Heq.
  - by apply Hnull in Heq.
  - done.
  - symmetry in Heq. by apply Hnull in Heq.
  - by apply str_of_int_split in Heq as [-> ->].
  - by apply Hlist in Heq.
  - done.
  - symmetry in Heq. by apply Hlist in Heq.
  - simpl in Heq. injection Heq as Heq.
    by apply int_list_split in Heq as [-> ->].
Qed.

Lemma chars_dumps_item (k : string) (v : param) (r : list ascii) :
  chars (dumps_item (k, v)) ++ r
  = dquote :: chars (escape k)
      ++ dquote :: ":"%char :: " "%char :: chars (dumps_param v) ++ r.
Proof.
  unfold dumps_item, dumps_str. cbn [fst snd].
  rewrite !list_ascii_app. cbn [String.list_ascii_of_string].
  rewrite !list_ascii_app. cbn [String.list_ascii_of_string].
  rewrite <-!app_assoc, <-!app_comm_cons, <-!app_assoc. reflexivity.
Qed.

(** The items of a dict can be read back from its text. *)
Lemma dumps_items_inj (l1 l2 : kwargs) :
  chars (join_close (dumps_item <$> l1) "}")
    = chars (join_close (dumps_item <$> l2) "}") →
  l1 = l2.
Proof.
  revert l2. induction l1 as [|[k1 v1] l1 IH]; intros [|[k2 v2] l2] Heq.
  - done.
  - rewrite fmap_cons, chars_join_close, chars_dumps_item in Heq. done.
  - rewrite fmap_cons, chars_join_close, chars_dumps_item in Heq. done.
  - rewrite !fmap_cons, !chars_join_close, !chars_dumps_item in Heq.
    injection Heq as Heq. apply escape_inj in Heq as [-> Heq].
    injection Heq as Heq. apply dumps_param_split in Heq as [-> Heq].
    + f_equal. destruct l1 as [|i1 l1], l2 as [|i2 l2]; try done.
      injection Heq as Heq. by apply IH.
    + by destruct l1.
    + by destruct l2.
Qed.

Lemma append_inv_head (s a b : string) : s +:+ a = s +:+ b → a = b.
Proof. induction s as [|c s IH]; [done|]. intros [= H]. by apply IH. Qed.

(** X24.  The text that is hashed into the cache key determines the
    parameters: when two calls of a metric are hashed from the same text,
    their parameter dicts hold the same items.  Calls with different
    parameters can thus share a key only through a collision of the
    truncated hash. *)
Theorem hashed_text_determines_parameters (metric_name : string)
    (kw1 kw2 : kwargs) :
  combined metric_name kw1 = combined metric_name kw2 → kw1 ≡ₚ kw2.
Proof.
  unfold combined, dumps. intros Heq.
  do 2 apply append_inv_head in Heq. injection Heq as Heq.
  apply (f_equal chars), dumps_items_inj in Heq.
  unfold sorted_items in Heq.
  rewrite <-(merge_sort_Permutation item_le kw1), Heq.
  apply merge_sort_Permutation.
Qed.

Lemma hashed_text_determines_parameters_witness :
  [("season", PInt 2012); ("driver_id", PInt 70); ("race_ids", PList [1; 2])]
  ≡ₚ [("driver_id", PInt 70); ("race_ids", PList [1; 2]);
      ("season", PInt 2012)].
Proof.
  apply (hashed_text_determines_parameters "dnf_rate").
  vm_compute. reflexivity.
Defined.

End hashed_text.

(** ** Constructor views by race *)

Section constructor_views.

Import Config Py Loader Views.

Lemma agg_min_None (xs : list (option Z)) :
  agg_min xs = None ↔ agg_count xs = 0.
Proof.
  unfold agg_min, agg_count. destruct (omap id xs) as [|y ys]; [done|].
  cbn [foldr length]. split; [|lia]. by destruct (foldr _ None ys).
Qed.

Lemma agg_mean_None (xs : list (option Z)) :
  agg_mean xs = None ↔ agg_count xs = 0.
Proof.
  unfold agg_mean, agg_count. destruct (omap id xs) as [|y ys]; [done|].
  cbn [length]. split; [done|lia].
Qed.

(** X25.  [get_constructor_points_data] has one row per race and
    constructor; in each row [cars_finished] counts the cars with a numeric
    position, and [best_finish] and [avg_finish] are missing exactly when
    there is no such car. *)
Theorem points_data_rows (t : tables) (season constructor_id : option Z) :
  NoDup ((λ row, (pd_raceId row, (pd_constructorId row,
                                  (pd_year row, pd_round row))))
           <$> get_constructor_points_data t season constructor_id) ∧
  ∀ row, row ∈ get_constructor_points_data t season constructor_id →
    0 ≤ pd_cars_finished row ∧
    (pd_best_finish row = None ↔ pd_cars_finished row = 0) ∧
    (pd_avg_finish row = None ↔ pd_cars_finished row = 0).
Proof.
  unfold get_constructor_points_data.
  destruct (get_constructor_results t season constructor_id) as [|r0 rs];
    [split; [constructor|by intros row ?%elem_of_nil]|].
  set (results := r0 :: rs). split.
  - rewrite <-list_fmap_compose.
    rewrite (list_fmap_ext _ fst (groupby key4_le race_constructor_key results));
      [apply NoDup_groupby_keys|].
    by intros _ [[r [c [y rd]]] g] _.
  - intros row ([k g] & -> & _)%list_elem_of_fmap.
    cbn [pd_cars_finished pd_best_finish pd_avg_finish snd].
    split_and!; [unfold agg_count; lia|apply agg_min_None|apply agg_mean_None].
Qed.

(** X26.  With a constructor given, [get_constructor_qualifying_performance]
    attributes a qualifying row by the driver's first result among the
    races of the season: the rows returned are those of drivers whose
    first such result is for the constructor, whatever constructor the
    qualifying row itself names. *)
Theorem qualifying_by_first_result (t : tables) (season : option Z)
    (constructor_id : Z) (row : qualifying_with_race) :
  constructor_id ≠ 0 →
  row ∈ get_constructor_qualifying_performance t season (Some constructor_id) →
  q_constructorId row.1 = Some constructor_id ∧
  ∃ r, head (filter (λ r, res_driverId r = q_driverId row.1)
               (get_results t (Some (resolved t season)))) = Some r ∧
       res_constructorId r = constructor_id.
Proof.
  intros Hc Hrow. unfold get_constructor_qualifying_performance in Hrow.
  assert (truthy (Some constructor_id) = true) as Ht
    by (simpl; by apply negb_true_iff, Z.eqb_neq).
  rewrite Ht in Hrow. apply elem_of_results_races in Hrow as [Hq _].
  apply list_elem_of_filter in Hq as [Hcid Hq]. split; [done|].
  apply list_elem_of_fmap in Hq as (q & Hq1 & _).
  rewrite Hq1 in Hcid |- *. cbn [q_constructorId q_driverId] in *.
  unfold driver_constructor_map in Hcid. unfold resolved.
  destruct (head _) as [r|]; [|done]. injection Hcid as Hcid. by exists r.
Qed.

Lemma qualifying_by_first_result_witness :
  let t :=
    mk_tables [mk_race 2 2012 1 "Australian Grand Prix" "2012-03-18"]
      [Sample.res 3 2 70 7 "2" "2" 2 18] [] [] []
      [mk_qualifying 1 2 70 (Some 9) (Some 4)] [] [] in
  let row :=
    (mk_qualifying 1 2 70 (Some 7) (Some 4),
     Some (mk_race 2 2012 1 "Australian Grand Prix" "2012-03-18")) in
  q_constructorId row.1 = Some 7 ∧
  ∃ r, head (filter (λ r, res_driverId r = q_driverId row.1)
               (get_results t (Some (resolved t (Some 2012))))) = Some r ∧
       res_constructorId r = 7.
Proof.
  intros t row. apply (qualifying_by_first_result t (Some 2012) 7 row).
  - lia.
  - vm_compute. left.
Defined.

End constructor_views.

(** ** Collisions of the cache key *)

Section collisions.

Import Config Py Base Json Cache Predicates.

Lemma add32_range (x y : Z) : 0 ≤ Sha256.add32 x y < 2 ^ 32.
Proof.
  unfold Sha256.add32, Sha256.mask32. change 0xffffffff with (Z.ones 32).
  rewrite Z.land_ones by lia. apply Z.mod_pos_bound. lia.
Qed.

Lemma digest_words_range (msg : list Z) :
  ∃ a b rest, Sha256.digest_words msg = a :: b :: rest ∧
              0 ≤ a < 2 ^ 32 ∧ 0 ≤ b < 2 ^ 32.
Proof.
  unfold Sha256.digest_words.
  generalize (Sha256.chunks (length (Sha256.pad msg)) 64 (Sha256.pad msg)).
  intros blocks. destruct blocks as [|block blocks _] using rev_ind.
  - cbn [foldl]. unfold Sha256.H0. eexists _, _, _. split; [reflexivity|lia].
  - rewrite foldl_app. cbn [foldl].
    destruct (foldl Sha256.compress Sha256.H0 blocks)
      as [[[[[[[a b] c] d] e] f] g] h].
    unfold Sha256.compress.
    destruct (foldl Sha256.round _ _) as [[[[[[[a' b'] c'] d'] e'] f'] g'] h'].
    eexists _, _, _. split; [reflexivity|]. split; apply add32_range.
Qed.

Lemma string_app_assoc (s1 s2 s3 : string) :
  (s1 +:+ s2) +:+ s3 = s1 +:+ (s2 +:+ s3).
Proof.
  induction s1 as [|c s1 IH]; [done|].
  change (String c ((s1 +:+ s2) +:+ s3) = String c (s1 +:+ (s2 +:+ s3))).
  by rewrite IH.
Qed.

Lemma substring_prefix (n : nat) (s1 s2 : string) :
  String.length s1 = n → substring 0 n (s1 +:+ s2) = s1.
Proof.
  revert s1. induction n as [|n IH]; intros [|c s1] Hlen; simpl in *; try done.
  - by destruct s2.
  - rewrite IH; [done|lia].
Qed.

(** The key is read off its number. *)
Lemma generate_key_number (metric_name : string) (kw : kwargs) :
  ∃ a b, 0 ≤ a < 2 ^ 32 ∧ 0 ≤ b < 2 ^ 32 ∧
         key_number metric_name kw = a * 2 ^ 32 + b ∧
         _generate_key metric_name kw = Sha256.hex 8 a +:+ Sha256.hex 8 b.
Proof.
  unfold key_number, _generate_key, Sha256.hexdigest.
  destruct (digest_words_range (encode (combined metric_name kw)))
    as (a & b & rest & -> & Ha & Hb).
  exists a, b. split_and!; [first [done|lia]..|]. cbn [foldr].
  rewrite <-string_app_assoc. apply substring_prefix.
  by rewrite string_length_app, !length_hex.
Qed.

Lemma bounded_search (g : Z → Z) (v n : Z) :
  0 ≤ n →
  (∃ i, 0 ≤ i < n ∧ g i = v) ∨ (∀ i, 0 ≤ i < n → g i ≠ v).
Proof.
  revert n. apply natlike_ind.
  - right. lia.
  - intros n Hn [(i & Hi & Hg)|Hnone].
    + left. exists i. split; [lia|done].
    + destruct (decide (g n = v)) as [Hg|Hg].
      * left. exists n. split; [lia|done].
      * right. intros i Hi. destruct (decide (i = n)) as [->|]; [done|].
        apply Hnone. lia.
Qed.

(** More values than places: two of them share a place. *)
Lemma pigeonhole (n : Z) :
  0 ≤ n → ∀ g : Z → Z,
  (∀ i, 0 ≤ i ≤ n → 0 ≤ g i < n) →
  ∃ i j, 0 ≤ i < j ∧ j ≤ n ∧ g i = g j.
Proof.
  revert n. apply (natlike_ind (λ n, ∀ g : Z → Z,
    (∀ i, 0 ≤ i ≤ n → 0 ≤ g i < n) → ∃ i j, 0 ≤ i < j ∧ j ≤ n ∧ g i = g j)).
  - intros g Hg. specialize (Hg 0). lia.
  - intros n Hn IH g Hg.
    destruct (bounded_search g (g (Z.succ n)) (Z.succ n) ltac:(lia))
      as [(i & Hi & Heq)|Hnone].
    + exists i, (Z.succ n). split_and!; [lia..|done].
    + destruct (IH (λ i, if decide (g i < g (Z.succ n)) then g i else g i - 1))
        as (i & j & Hij & Hj & Heq).
      * intros i Hi. pose proof (Hg i ltac:(lia)).
        pose proof (Hg (Z.succ n) ltac:(lia)).
        pose proof (Hnone i ltac:(lia)). case_decide; lia.
      * exists i, j. split_and!; [lia..|].
        pose proof (Hnone i ltac:(lia)). pose proof (Hnone j ltac:(lia)).
        cbv beta in Heq. repeat case_decide; lia.
Qed.

(** X27.  The cache key does not tell all parameters apart: for every
    metric there are two parameter dicts that differ and yet have the same
    key, so that a [get] for the one can be answered with the result
    stored for the other. *)
Theorem generate_key_collides (metric_name : string) :
  ∃ kw1 kw2 : kwargs,
    ¬ kw1 ≡ₚ kw2 ∧
    _generate_key metric_name kw1 = _generate_key metric_name kw2.
Proof.
  destruct (pigeonhole (2 ^ 64) ltac:(lia)
              (λ z, key_number metric_name [("season", PInt z)]))
    as (i & j & Hij & _ & Heq).
  - intros i _.
    destruct (generate_key_number metric_name [("season", PInt i)])
      as (a & b & Ha & Hb & -> & _). lia.
  - exists [("season", PInt i)], [("season", PInt j)]. split.
    + intros Hperm. apply Permutation_length_1 in Hperm.
      injection Hperm as Hperm. lia.
    + cbv beta in Heq.
      destruct (generate_key_number metric_name [("season", PInt i)])
        as (a1 & b1 & Ha1 & Hb1 & Hn1 & ->).
      destruct (generate_key_number metric_name [("season", PInt j)])
        as (a2 & b2 & Ha2 & Hb2 & Hn2 & ->).
      rewrite Hn1, Hn2 in Heq.
      assert (a1 = a2) as -> by lia. assert (b1 = b2) as -> by lia. done.
Qed.

End collisions.

(** ** The DNF rate as a percentage *)

Section dnf_percentage.

Import Config Py Loader Base Json Cache Metrics.





End dnf_percentage.
